(** * Welcome Bot: a Mattermost app storing one welcome message

    Shallow embedding of the two Go sources of the app:
    - [MainGo]  : src/main.go, the scaffold whose handlers answer with
                  placeholder texts;
    - [Part000] : src/unnamed/part_000, the variant backed by the
                  platform key-value store.

    The Mattermost apps SDK ([apps], [appclient], [httputils]) and Go's
    [encoding/json] are not part of the repository; the few calls the
    handlers make into them are modelled in the first part of the file. *)

From Stdlib Require Import Ascii String List.
From stdpp Require Import base option gmap strings list.

Local Open Scope string_scope.
#[local] Set Warnings "-register-all".

(** ** Go values met by the handlers *)

(** What [encoding/json] puts in an [interface{}]. A nil interface and
    the JSON literal null are the same value here: the decoder yields
    nil for null and the encoder writes null for nil. *)
Inductive JSON : Type :=
| JNull
| JBool (b : bool)
| JNumber (literal : string)
| JString (s : string)
| JArray (items : list JSON)
| JObject (fields : list (string * JSON)).

(** Go's [error] values the handlers can observe ([nil] is [None] of
    [option error]). *)
Inductive error : Type :=
| ErrEOF                         (* io.EOF: the body is empty *)
| ErrSyntax                      (* the body is not JSON *)
| ErrUnmarshalType               (* a JSON value of the wrong Go type *)
| ErrNotFound                    (* the store holds nothing under the key *)
| ErrUnavailable (why : string). (* connectivity, permission, quota *)

(** [model.User], [model.Channel] and [model.Team] reduced to the fields
    that identify them. A channel of type "D" is a direct conversation. *)
Record User := { User_Id : string; User_Username : string }.
Record Channel := { Channel_Id : string; Channel_Type : string }.
Record Team := { Team_Id : string; Team_Name : string }.

(** [apps.Context]. The expanded entities are pointers in Go: [None] is
    the nil pointer. *)
Record CallContext := {
  BotUserID : string;
  BotAccessToken : string;
  MattermostSiteURL : string;
  ActingUser : option User;
  ContextChannel : option Channel;
  ContextTeam : option Team;
}.

(** [apps.CallRequest]. [Values] is a [map[string]interface{}]; reading a
    nil map behaves as reading an empty one, so both are [∅]. *)
Record CallRequest := {
  Context_ : CallContext;
  Values : gmap string JSON;
}.

(** The zero values [apps.Context{}] and [apps.CallRequest{}]. *)
Definition zeroContext : CallContext :=
  {| BotUserID := ""; BotAccessToken := ""; MattermostSiteURL := "";
     ActingUser := None; ContextChannel := None; ContextTeam := None |}.

Definition zeroCallRequest : CallRequest :=
  {| Context_ := zeroContext; Values := ∅ |}.

(** [m[key]] on a [map[string]interface{}]: the zero value nil when the
    key is missing. *)
Definition value_at (m : gmap string JSON) (key : string) : JSON :=
  default JNull (m !! key).

(** [apps.CallResponse]; [NewTextResponse] builds the "ok" kind. *)
Inductive CallResponseType := CallResponseTypeOK | CallResponseTypeError.

Record CallResponse := {
  Type_ : CallResponseType;
  Text : string;
}.

(** ** [fmt.Sprintf] called with a format and no operands

    The SDK builds the text of a response with [fmt.Sprintf(format,
    args...)], and the handlers pass it one string, so that string is
    a format without operands. The definitions follow [doPrintf] of
    Go's [fmt] for an empty operand list: text is copied up to a '%',
    then flags, argument index, width, precision and verb are read;
    "%%" gives a percent sign and any other verb reports its missing
    operand. Strings are sequences of bytes, as in Go. *)

Definition byte_of (c : Ascii.ascii) : N := Ascii.N_of_ascii c.

(** The flags '#', '0', '+', '-' and ' '. *)
Definition is_flag (c : Ascii.ascii) : bool :=
  existsb (Ascii.eqb c) ["#"; "0"; "+"; "-"; " "]%char.

Fixpoint skip_flags (s : string) : string :=
  match s with
  | String c rest => if is_flag c then skip_flags rest else s
  | EmptyString => s
  end.

(** [parsenum]: a decimal number; past 1e6 the rest of the format is
    given up. *)
Definition digit_of (c : Ascii.ascii) : option N :=
  let b := byte_of c in
  if (48 <=? b)%N && (b <=? 57)%N then Some (b - 48)%N else None.

Fixpoint parsenum_from (num : N) (isnum : bool) (s : string) : bool * string :=
  match s with
  | String c rest =>
      match digit_of c with
      | Some d =>
          if (1000000 <? num)%N then (false, "")
          else parsenum_from (num * 10 + d)%N true rest
      | None => (isnum, s)
      end
  | EmptyString => (isnum, s)
  end.

Definition parsenum (s : string) : bool * string := parsenum_from 0%N false s.

(** [parseArgNumber] and [argNumber]: an index [[n]]. Without operands
    no index is in range, so any '[' spoils the directive. The results
    are the rest of the format, whether an index was read, and whether
    the directive is still good. *)
Fixpoint up_to_bracket (s : string) : option (string * string) :=
  match s with
  | String c rest =>
      if Ascii.eqb c "]" then Some ("", rest)
      else '(content, after) ← up_to_bracket rest; Some (String c content, after)
  | EmptyString => None
  end.

Definition parseArgNumber (s : string) : string * bool :=
  match s with
  | String _ inner =>
      if (String.length s <? 3)%nat then (inner, false)
      else
        match up_to_bracket inner with
        | Some (content, after) =>
            match parsenum content with
            | (true, EmptyString) => (after, true)
            | _ => (after, false)
            end
        | None => (inner, false)
        end
  | EmptyString => (s, false)
  end.

Definition argNumber (s : string) (good : bool) : string * bool * bool :=
  match s with
  | String "[" _ => let '(rest, ok) := parseArgNumber s in (rest, ok, false)
  | _ => (s, false, good)
  end.

(** The verb is one UTF-8 sequence; a byte that starts none is written
    as U+FFFD. [first] gives the length of the sequence a lead byte
    opens and the range of its second byte. *)
Definition RuneError : string :=
  String (Ascii.ascii_of_N 239) (String (Ascii.ascii_of_N 191) (String (Ascii.ascii_of_N 189) "")).

Definition first (b : N) : option (nat * N * N) :=
  if (194 <=? b)%N && (b <=? 223)%N then Some (2, 128%N, 191%N)
  else if (b =? 224)%N then Some (3, 160%N, 191%N)
  else if (b =? 237)%N then Some (3, 128%N, 159%N)
  else if (225 <=? b)%N && (b <=? 239)%N then Some (3, 128%N, 191%N)
  else if (b =? 240)%N then Some (4, 144%N, 191%N)
  else if (241 <=? b)%N && (b <=? 243)%N then Some (4, 128%N, 191%N)
  else if (b =? 244)%N then Some (4, 128%N, 143%N)
  else None.

Definition between (lo hi : N) (c : Ascii.ascii) : bool :=
  (lo <=? byte_of c)%N && (byte_of c <=? hi)%N.

Definition decode_verb (c : Ascii.ascii) (rest : string) : string * string :=
  if (byte_of c <? 128)%N then (String c "", rest)
  else
    match first (byte_of c), rest with
    | Some (2%nat, lo, hi), String c1 r1 =>
        if between lo hi c1 then (String c (String c1 ""), r1) else (RuneError, rest)
    | Some (3%nat, lo, hi), String c1 (String c2 r2) =>
        if between lo hi c1 && between 128%N 191%N c2
        then (String c (String c1 (String c2 "")), r2) else (RuneError, rest)
    | Some (4%nat, lo, hi), String c1 (String c2 (String c3 r3)) =>
        if between lo hi c1 && between 128%N 191%N c2 && between 128%N 191%N c3
        then (String c (String c1 (String c2 (String c3 ""))), r3) else (RuneError, rest)
    | _, _ => (RuneError, rest)
    end.

(** Width, precision and verb, each with what it writes. *)
Definition width_of (s : string) (afterIndex good : bool) : string * string * bool * bool :=
  match s with
  | String "*" rest => ("%!(BADWIDTH)", rest, false, good)
  | _ => let '(isnum, rest) := parsenum s in
         ("", rest, afterIndex, good && negb (afterIndex && isnum))
  end.

Definition precision_of (s : string) (afterIndex good : bool) : string * string * bool * bool :=
  match s with
  | String "." rest =>
      let '(s', found, good') := argNumber rest (good && negb afterIndex) in
      match s' with
      | String "*" rest' => ("%!(BADPREC)", rest', false, good')
      | _ => ("", snd (parsenum s'), found, good')
      end
  | _ => ("", s, afterIndex, good)
  end.

Definition verb_of (s : string) (good : bool) : string * string :=
  match s with
  | EmptyString => ("%!(NOVERB)", "")
  | String c rest =>
      let '(verb, rest') := decode_verb c rest in
      if Ascii.eqb c "%" then ("%", rest')
      else if good then ("%!" +:+ verb +:+ "(MISSING)", rest')
      else ("%!" +:+ verb +:+ "(BADINDEX)", rest')
  end.

(** One directive, from the byte after its '%': what is written and
    the rest of the format. *)
Definition directive (s : string) : string * string :=
  let '(s1, afterIndex1, good1) := argNumber (skip_flags s) true in
  let '(out_w, s2, afterIndex2, good2) := width_of s1 afterIndex1 good1 in
  let '(out_p, s3, afterIndex3, good3) := precision_of s2 afterIndex2 good2 in
  let '(s4, _, good4) :=
    if afterIndex3 then (s3, afterIndex3, good3) else argNumber s3 good3 in
  let '(out_v, rest) := verb_of s4 good4 in
  (out_w +:+ out_p +:+ out_v, rest).

(** The loop of [doPrintf]. Every round takes at least one byte, so
    the length of the format is fuel enough ([doPrintf_fuel]). *)
Fixpoint doPrintf (fuel : nat) (format : string) : string :=
  match fuel, format with
  | S fuel', String c rest =>
      if Ascii.eqb c "%"
      then let '(out, rest') := directive rest in out +:+ doPrintf fuel' rest'
      else String c (doPrintf fuel' rest)
  | _, _ => ""
  end.

Definition Sprintf (format : string) : string :=
  doPrintf (String.length format) format.

(** [apps.NewTextResponse(format, args...)] of the SDK: a response of
    the OK kind whose text is [fmt.Sprintf(format, args...)]. Every call
    in the sources passes one string, which is therefore the format. *)
Definition NewTextResponse (format : string) : CallResponse :=
  {| Type_ := CallResponseTypeOK; Text := Sprintf format |}.

(** ** Request bodies and [json.NewDecoder(req.Body).Decode(&c)] *)

(** A request body, classified by what the decoder does with it. A body
    that fails half way may already have filled some fields. *)
Inductive Body : Type :=
| NoBody
| Malformed (filled : CallRequest) (why : error)
| Encoded (c : CallRequest).

(** [Decode] returns the request as left by the decoder and its error;
    every handler drops the error. *)
Definition Decode (body : Body) (c : CallRequest) : CallRequest * option error :=
  match body with
  | NoBody => (c, Some ErrEOF)
  | Malformed filled why => (filled, Some why)
  | Encoded c' => (c', None)
  end.

(** ** The world outside the handlers *)

(** One call to the key-value methods of the client, as a handler
    makes it. *)
Inductive KVOp : Type :=
| OpGet (pfx key : string)
| OpSet (pfx key : string) (value : JSON)
| OpDelete (pfx key : string).

Definition op_target (op : KVOp) : string * string :=
  match op with
  | OpGet pfx key | OpSet pfx key _ | OpDelete pfx key => (pfx, key)
  end.

(** The bot's storage namespace with the calls made so far (oldest
    first), the direct messages posted and the lines printed by [log]. *)
Record World := {
  kv : gmap (string * string) JSON;
  kvlog : list KVOp;
  posts : list (string * string);
  logged : list (option error);
}.

Definition emptyWorld : World :=
  {| kv := ∅; kvlog := []; posts := []; logged := [] |}.

(** How the platform treats the one call a handler makes: [fault] is the
    error of an unreachable or refusing service, [declines] makes a
    write answer (false, nil). *)
Record Platform := {
  fault : option error;
  declines : bool;
}.

Definition healthy : Platform := {| fault := None; declines := false |}.
Definition unreachable (why : string) : Platform :=
  {| fault := Some (ErrUnavailable why); declines := false |}.
Definition declining : Platform := {| fault := None; declines := true |}.

(** ** A state monad with panics *)

Inductive Res (A : Type) : Type :=
| Done (a : A)
| Panic (msg : string).
Arguments Done {A} a.
Arguments Panic {A} msg.

Definition M (A : Type) : Type := World -> Res A * World.

Definition ret {A} (a : A) : M A := fun w => (Done a, w).

Definition bind {A B} (m : M A) (k : A -> M B) : M B :=
  fun w =>
    match m w with
    | (Done a, w') => k a w'
    | (Panic msg, w') => (Panic msg, w')
    end.

Definition panic {A} (msg : string) : M A := fun w => (Panic msg, w).

(** stdpp's monad notations ([x ← m; k], [m ;; k]) are used for [M]. *)
#[global] Instance M_ret : MRet M := @ret.
#[global] Instance M_bind : MBind M := fun A B k m => bind m k.

Definition modify (f : World -> World) : M unit := fun w => (Done tt, f w).
Definition gets {A} (f : World -> A) : M A := fun w => (Done (f w), w).

Definition record_op (op : KVOp) (w : World) : World :=
  {| kv := kv w; kvlog := kvlog w ++ [op]; posts := posts w; logged := logged w |}.

Definition with_kv (f : gmap (string * string) JSON -> gmap (string * string) JSON)
    (w : World) : World :=
  {| kv := f (kv w); kvlog := kvlog w; posts := posts w; logged := logged w |}.

Definition add_post (to msg : string) (w : World) : World :=
  {| kv := kv w; kvlog := kvlog w; posts := posts w ++ [(to, msg)]; logged := logged w |}.

Definition add_log (e : option error) (w : World) : World :=
  {| kv := kv w; kvlog := kvlog w; posts := posts w; logged := logged w ++ [e] |}.

(** ** The bot client *)

(** [appclient.AsBot(c.Context)]: a client acting as the app's bot. *)
Record Client := { acting_as : string; credentials : CallContext }.

Definition AsBot (cc : CallContext) : Client :=
  {| acting_as := BotUserID cc; credentials := cc |}.

(** Decoding a stored value into a Go [string] variable holding [ref]:
    a JSON string replaces it, null leaves it, anything else is a type
    error that leaves it too. *)
Definition unmarshal_string (v : JSON) (ref : string) : string * option error :=
  match v with
  | JString s => (s, None)
  | JNull => (ref, None)
  | _ => (ref, Some ErrUnmarshalType)
  end.

(** Modelled from the spec: the platform's key-value interface
    (get -> value | absent, set -> ok | error, delete -> ok), which the
    SDK's client exposes as [KVGet], [KVSet] and [KVDelete]. An absent
    key and a failing service both reach the caller of [KVGet] as a
    non-nil error. *)
Definition KVGet (p : Platform) (client : Client) (pfx id : string) (ref : string)
    : M (string * option error) :=
  (modify (record_op (OpGet pfx id)) ;;
   stored ← gets (fun w => kv w !! (pfx, id));
   match fault p, stored with
   | Some e, _ => ret (ref, Some e)
   | None, None => ret (ref, Some ErrNotFound)
   | None, Some v => ret (unmarshal_string v ref)
   end).

(** Modelled from the spec: see [KVGet]. The write replaces the value
    under the key; it answers (true, nil) when stored, (false, nil) when
    the platform declined it and (false, err) when it failed. *)
Definition KVSet (p : Platform) (client : Client) (pfx id : string) (value : JSON)
    : M (bool * option error) :=
  (modify (record_op (OpSet pfx id value)) ;;
   match fault p with
   | Some e => ret (false, Some e)
   | None =>
       if declines p then ret (false, None)
       else modify (with_kv (insert (pfx, id) value)) ;; ret (true, None)
   end).

(** Modelled from the spec: see [KVGet]. Deleting an absent key is not
    an error. *)
Definition KVDelete (p : Platform) (client : Client) (pfx id : string)
    : M (option error) :=
  (modify (record_op (OpDelete pfx id)) ;;
   match fault p with
   | Some e => ret (Some e)
   | None => modify (with_kv (delete (pfx, id))) ;; ret None
   end).

(** [DM(userID, format, args...)] of the SDK client: the bot posts the
    text [fmt.Sprintf(format, args...)] in its direct channel with the
    user. Nothing is posted when the platform fails the call or when
    the client has no bot user to post as; the caller drops the error. *)
Definition DM (p : Platform) (client : Client) (userID format : string) : M unit :=
  match fault p with
  | Some _ => ret tt
  | None =>
      if String.eqb (acting_as client) "" then ret tt
      else modify (add_post userID (Sprintf format))
  end.

(** [log.Println(err)] *)
Definition log_Println (e : option error) : M unit := modify (add_log e).

(** [httputils.WriteJSON(w, v)]: the value becomes the body of the
    response; a handler's result is the response it wrote. *)
Definition WriteJSON (v : CallResponse) : M CallResponse := ret v.

(** A handler registered with [http.HandleFunc]. *)
Definition Handler : Type := Platform -> Body -> M CallResponse.

(** Dereferencing [c.Context.ActingUser]: a nil pointer panics. *)
Definition deref_ActingUser (cc : CallContext) : M User :=
  match ActingUser cc with
  | Some u => ret u
  | None => panic "runtime error: invalid memory address or nil pointer dereference"
  end.

(** The six commands of the bot and the paths [main] binds them to. *)
Inductive Command : Type :=
| CmdHelp | CmdList | CmdPreview
| CmdSetChannelWelcome | CmdGetChannelWelcome | CmdDeleteChannelWelcome.

Definition command_name (cmd : Command) : string :=
  match cmd with
  | CmdHelp => "help"
  | CmdList => "list"
  | CmdPreview => "preview"
  | CmdSetChannelWelcome => "set_channel_welcome"
  | CmdGetChannelWelcome => "get_channel_welcome"
  | CmdDeleteChannelWelcome => "delete_channel_welcome"
  end.

Definition all_commands : list Command :=
  [CmdHelp; CmdList; CmdPreview;
   CmdSetChannelWelcome; CmdGetChannelWelcome; CmdDeleteChannelWelcome].

Definition command_of_path (path : string) : option Command :=
  if String.eqb path "/preview" then Some CmdPreview
  else if String.eqb path "/help" then Some CmdHelp
  else if String.eqb path "/list" then Some CmdList
  else if String.eqb path "/set_channel_welcome" then Some CmdSetChannelWelcome
  else if String.eqb path "/get_channel_welcome" then Some CmdGetChannelWelcome
  else if String.eqb path "/delete_channel_welcome" then Some CmdDeleteChannelWelcome
  else None.

(** [needle] occurs in [hay]. *)
Fixpoint contains (needle hay : string) : bool :=
  String.prefix needle hay
  || match hay with
     | EmptyString => false
     | String _ rest => contains needle rest
     end.

(** ** Calls, forms and bindings of the SDK *)

(** [apps.ExpandLevel] and the one field of [apps.Expand] the sources
    set. *)
Inductive ExpandLevel : Type := ExpandDefault | ExpandAll.

Record Expand := { ActingUserAccessToken : ExpandLevel }.

(** [apps.Call]: the path the platform posts to, and what it expands in
    the context of the request. *)
Record Call := { Path : string; Call_Expand : Expand }.

(** [apps.NewCall(path)] and the method [WithExpand(expand)] of a call. *)
Definition NewCall (path : string) : Call :=
  {| Path := path; Call_Expand := {| ActingUserAccessToken := ExpandDefault |} |}.

Definition WithExpand (c : Call) (expand : Expand) : Call :=
  {| Path := Path c; Call_Expand := expand |}.

(** [apps.Field] and [apps.Form], with the fields the sources fill. *)
Record Field := { Field_Type : string; Field_Name : string }.

Record Form := {
  Form_Title : string;
  Form_Icon : string;
  Form_Fields : list Field;
  Form_Submit : option Call;
}.

(** [apps.Binding]; a field left out of a Go literal holds its zero
    value (the empty string, a nil slice, a nil pointer). *)
Inductive Binding : Type := mkBinding {
  Binding_Location : string;
  Binding_Icon : string;
  Binding_Label : string;
  Binding_Description : string;
  Binding_Hint : string;
  Binding_Bindings : list Binding;
  Binding_Submit : option Call;
  Binding_Form : option Form;
}.

(** The literal [{Label: label, Submit: submit}] or
    [{Label: label, Form: form}] of a command. *)
Definition command_binding (label : string) (submit : option Call) (form : option Form)
    : Binding :=
  {| Binding_Location := ""; Binding_Icon := ""; Binding_Label := label;
     Binding_Description := ""; Binding_Hint := ""; Binding_Bindings := [];
     Binding_Submit := submit; Binding_Form := form |}.

(** The bindings without sub-bindings below a binding. *)
Fixpoint leaves (b : Binding) : list Binding :=
  match Binding_Bindings b with
  | [] => [b]
  | subs => flat_map leaves subs
  end.

(** The call a binding leads to: its own [Submit], else the [Submit] of
    its form. *)
Definition binding_call (b : Binding) : option Call :=
  match Binding_Submit b with
  | Some c => Some c
  | None => Binding_Form b ≫= Form_Submit
  end.

(** ** src/main.go: the scaffold *)

Module MainGo.

Definition HelpCall : Handler := fun p req =>
  (let c := fst (Decode req zeroCallRequest) in
   let message := "Help Call" in
   actingUser ← deref_ActingUser (Context_ c);
   DM p (AsBot (Context_ c)) (User_Id actingUser) message ;;
   WriteJSON (NewTextResponse "Shown Welcome Bot Help")).

Definition PreviewCall : Handler := fun p req =>
  WriteJSON (NewTextResponse "Shown Welcome Bot Preview").

Definition ListCall : Handler := fun p req =>
  WriteJSON (NewTextResponse "Shown Welcome Bot List").

Definition SetChannelWelcomeCall : Handler := fun p req =>
  WriteJSON (NewTextResponse "Shown Welcome Bot Set channel welcome").

Definition GetChannelWelcomeCall : Handler := fun p req =>
  WriteJSON (NewTextResponse "Shown Welcome Bot Get Channel welcome").

Definition DeleteChannelWelcomeCall : Handler := fun p req =>
  WriteJSON (NewTextResponse "Shown Welcome Bot Delete channel welcome").

(** The [http.HandleFunc] registrations of [main]. *)
Definition handler (cmd : Command) : Handler :=
  match cmd with
  | CmdPreview => PreviewCall
  | CmdHelp => HelpCall
  | CmdList => ListCall
  | CmdSetChannelWelcome => SetChannelWelcomeCall
  | CmdGetChannelWelcome => GetChannelWelcomeCall
  | CmdDeleteChannelWelcome => DeleteChannelWelcomeCall
  end.

(** The call of each command, and the two forms. *)
Definition ShowHelp : Call :=
  WithExpand (NewCall "/help") {| ActingUserAccessToken := ExpandAll |}.
Definition ShowList : Call := NewCall "/list".
Definition GetChannelWelcome : Call := NewCall "/get_channel_welcome".
Definition DeleteChannelWelcome : Call := NewCall "/delete_channel_welcome".

Definition ShowPreviewForTeam : Form :=
  {| Form_Title := "Welcome Bot"; Form_Icon := "icon.png";
     Form_Fields := [ {| Field_Type := "text"; Field_Name := "Team Name" |} ];
     Form_Submit := Some (WithExpand (NewCall "/preview")
                                     {| ActingUserAccessToken := ExpandAll |}) |}.

Definition SetChannelWelcome : Form :=
  {| Form_Title := "Welcome Bot"; Form_Icon := "icon.png";
     Form_Fields := [ {| Field_Type := "text"; Field_Name := "Team Name" |} ];
     Form_Submit := Some (WithExpand (NewCall "/set_channel_welcome")
                                     {| ActingUserAccessToken := ExpandAll |}) |}.

(** The details for the App UI bindings. *)
Definition Bindings : list Binding :=
  [ {| Binding_Location := "/command"; Binding_Icon := ""; Binding_Label := "";
       Binding_Description := ""; Binding_Hint := "";
       Binding_Submit := None; Binding_Form := None;
       Binding_Bindings :=
         [ {| Binding_Location := ""; Binding_Icon := "icon.png"; Binding_Label := "mybot";
              Binding_Description := "Welcome Bot app";
              Binding_Hint := "[help|list|preview|set_channel_welcome|get_channel_welcome|delete_channel_welcome]";
              Binding_Submit := None; Binding_Form := None;
              Binding_Bindings :=
                [ command_binding "help" (Some ShowHelp) None;
                  command_binding "list" (Some ShowList) None;
                  command_binding "preview [team-name]" None (Some ShowPreviewForTeam);
                  command_binding "set_channel_welcome [team-name]" None (Some SetChannelWelcome);
                  command_binding "get_channel_welcome" (Some GetChannelWelcome) None;
                  command_binding "delete_channel_welcome" (Some DeleteChannelWelcome) None ] |} ] |} ].

End MainGo.

(** ** src/unnamed/part_000: the variant backed by the key-value store *)

Module Part000.

Definition AppID : string := "welcome-bot".
Definition KVAppPrefix : string := "wb".

Definition commandHelp : string :=
"* |/welcomebot preview [team-name] | - preview the welcome message for the given team name. The current user's username will be used to render the template.
* |/welcomebot list| - list the teams for which welcome messages were defined
* |/welcomebot set_channel_welcome [welcome-message]| - set the welcome message for the given channel. Direct channels are not supported.
* |/welcomebot get_channel_welcome| - print the welcome message set for the given channel (if any)
* |/welcomebot delete_channel_welcome| - delete the welcome message for the given channel (if any)
".

Definition HelpCall : Handler := fun p req =>
  WriteJSON (NewTextResponse commandHelp).

Definition PreviewCall : Handler := fun p req =>
  WriteJSON (NewTextResponse "Shown Welcome Bot Preview").

Definition ListCall : Handler := fun p req =>
  (let welcomeMessages := "" in
   let c := fst (Decode req zeroCallRequest) in
   let client := AsBot (Context_ c) in
   '(welcomeMessages, err) ← KVGet p client KVAppPrefix "welcome_message" welcomeMessages;
   let message :=
     match err with
     | Some _ => "You need to set the `welcome_messages` with set_welcome_message"
     | None => "Shown Welcome Bot List"
     end in
   WriteJSON (NewTextResponse message)).

(** The reply chosen from the two results of [KVSet]:
    [err != nil || !isSet]. *)
Definition set_failed (isSet : bool) (err : option error) : bool :=
  match err with
  | Some _ => true
  | None => negb isSet
  end.

Definition SetChannelWelcomeCall : Handler := fun p req =>
  (let c := fst (Decode req zeroCallRequest) in
   let welcomeMessages := value_at (Values c) "message" in
   let client := AsBot (Context_ c) in
   '(isSet, err) ← KVSet p client KVAppPrefix "welcome_message" welcomeMessages;
   message ←
     (if set_failed isSet err
      then (log_Println err ;; ret "We couldn't set your message")
      else ret "Your message has been set");
   WriteJSON (NewTextResponse message)).

Definition GetChannelWelcomeCall : Handler := fun p req =>
  (let welcomeMessages := "" in
   let c := fst (Decode req zeroCallRequest) in
   let client := AsBot (Context_ c) in
   '(welcomeMessages, err) ← KVGet p client KVAppPrefix "welcome_message" welcomeMessages;
   let message :=
     match err with
     | Some _ => "You need to set the `welcome_messages` with set_welcome_message"
     | None => welcomeMessages
     end in
   WriteJSON (NewTextResponse message)).

Definition DeleteChannelWelcomeCall : Handler := fun p req =>
  (let c := fst (Decode req zeroCallRequest) in
   let client := AsBot (Context_ c) in
   KVDelete p client KVAppPrefix "welcome_message" ;;
   WriteJSON (NewTextResponse "Shown Welcome Bot Delete channel welcome")).

(** The [http.HandleFunc] registrations of [main]. *)
Definition handler (cmd : Command) : Handler :=
  match cmd with
  | CmdPreview => PreviewCall
  | CmdHelp => HelpCall
  | CmdList => ListCall
  | CmdSetChannelWelcome => SetChannelWelcomeCall
  | CmdGetChannelWelcome => GetChannelWelcomeCall
  | CmdDeleteChannelWelcome => DeleteChannelWelcomeCall
  end.

(** Serving a sequence of requests, one after the other, each with the
    platform's behaviour at that moment. A panicking handler loses its
    response; the server goes on with the next request. *)
Fixpoint serve (reqs : list (Command * Platform * Body)) (w : World) : World :=
  match reqs with
  | [] => w
  | (cmd, p, body) :: rest => serve rest (snd (handler cmd p body w))
  end.

(** The call of each command, and the two forms. *)
Definition ShowHelp : Call :=
  WithExpand (NewCall "/help") {| ActingUserAccessToken := ExpandAll |}.
Definition ShowList : Call := NewCall "/list".
Definition GetChannelWelcome : Call := NewCall "/get_channel_welcome".
Definition DeleteChannelWelcome : Call := NewCall "/delete_channel_welcome".

Definition ShowPreviewForTeamForm : Form :=
  {| Form_Title := "Welcome Bot"; Form_Icon := "icon.png";
     Form_Fields := [ {| Field_Type := "text"; Field_Name := "Team Name" |} ];
     Form_Submit := Some (WithExpand (NewCall "/preview")
                                     {| ActingUserAccessToken := ExpandAll |}) |}.

Definition SetChannelWelcomeForm : Form :=
  {| Form_Title := "Welcome Bot"; Form_Icon := "icon.png";
     Form_Fields := [ {| Field_Type := "text"; Field_Name := "team_name" |};
                      {| Field_Type := "text"; Field_Name := "message" |} ];
     Form_Submit := Some (WithExpand (NewCall "/set_channel_welcome")
                                     {| ActingUserAccessToken := ExpandAll |}) |}.

(** The details for the App UI bindings. *)
Definition Bindings : list Binding :=
  [ {| Binding_Location := "/command"; Binding_Icon := ""; Binding_Label := "";
       Binding_Description := ""; Binding_Hint := "";
       Binding_Submit := None; Binding_Form := None;
       Binding_Bindings :=
         [ {| Binding_Location := ""; Binding_Icon := "icon.png"; Binding_Label := "mybot";
              Binding_Description := "Welcome Bot app";
              Binding_Hint := "[help|list|preview|set_channel_welcome|get_channel_welcome|delete_channel_welcome]";
              Binding_Submit := None; Binding_Form := None;
              Binding_Bindings :=
                [ command_binding "help" (Some ShowHelp) None;
                  command_binding "list" (Some ShowList) None;
                  command_binding "preview" None (Some ShowPreviewForTeamForm);
                  command_binding "set_channel_welcome" None (Some SetChannelWelcomeForm);
                  command_binding "get_channel_welcome" (Some GetChannelWelcome) None;
                  command_binding "delete_channel_welcome" (Some DeleteChannelWelcome) None ] |} ] |} ].

End Part000.

(** ** Vocabulary of the properties *)

(** The one storage slot the handlers of part_000 address. *)
Definition welcome_slot : string * string :=
  (Part000.KVAppPrefix, "welcome_message").

(** The error with which a read of the slot into a string variable
    holding [ref] comes back ([None] for nil), as [KVGet] computes it. *)
Definition read_error (p : Platform) (w : World) (ref : string) : option error :=
  snd match fault p, kv w !! welcome_slot with
      | Some e, _ => (ref, Some e)
      | None, None => (ref, Some ErrNotFound)
      | None, Some v => unmarshal_string v ref
      end.

(** The usage line of a command, and the weakest sense in which a text
    can be said to enumerate a command: its name occurs in it. *)
Definition documents (text : string) (cmd : Command) : bool :=
  contains ("* |/welcomebot " +:+ command_name cmd) text.

Definition mentions (text : string) (cmd : Command) : bool :=
  contains (command_name cmd) text.

(** A call made by alice from a direct conversation, and her team. *)
Definition direct_channel : Channel := {| Channel_Id := "dm-alice-bob"; Channel_Type := "D" |}.

Definition alice : User := {| User_Id := "u-alice"; User_Username := "alice" |}.

Definition acme : Team := {| Team_Id := "t-acme"; Team_Name := "Acme" |}.

(** A call made by alice from a public channel of her team. *)
Definition open_channel : Channel := {| Channel_Id := "town-square"; Channel_Type := "O" |}.

Definition in_open_channel : CallContext :=
  {| BotUserID := "bot"; BotAccessToken := "token"; MattermostSiteURL := "http://localhost:8065";
     ActingUser := Some alice; ContextChannel := Some open_channel; ContextTeam := Some acme |}.

Definition in_direct_channel : CallContext :=
  {| BotUserID := "bot"; BotAccessToken := "token"; MattermostSiteURL := "http://localhost:8065";
     ActingUser := Some alice; ContextChannel := Some direct_channel; ContextTeam := None |}.

(** A request as [serve] takes it, and the request the handlers work
    on once the body went through the decoder. *)
Definition Request : Type := Command * Platform * Body.

Definition decoded (body : Body) : CallRequest := fst (Decode body zeroCallRequest).

Definition submitted_message (body : Body) : JSON :=
  value_at (Values (decoded body)) "message".

(** The platform carries a call out, and stores a write. *)
Definition serves (p : Platform) : bool :=
  match fault p with
  | None => true
  | Some _ => false
  end.

Definition stores (p : Platform) : bool := serves p && negb (declines p).

(** The bot can post: the platform serves the call and the context
    names the bot user. *)
Definition can_post (p : Platform) (cc : CallContext) : bool :=
  serves p && negb (String.eqb (BotUserID cc) "").

(** The requests after which the store may differ: a write that was
    stored, a delete that was carried out. *)
Definition changes_store (r : Request) : bool :=
  match r with
  | (CmdSetChannelWelcome, p, _) => stores p
  | (CmdDeleteChannelWelcome, p, _) => serves p
  | _ => false
  end.

(** The key-value call a request of part_000 gives rise to. *)
Definition kv_call_of (r : Request) : list KVOp :=
  match r with
  | (CmdList, _, _) | (CmdGetChannelWelcome, _, _) =>
      [OpGet Part000.KVAppPrefix "welcome_message"]
  | (CmdSetChannelWelcome, _, body) =>
      [OpSet Part000.KVAppPrefix "welcome_message" (submitted_message body)]
  | (CmdDeleteChannelWelcome, _, _) =>
      [OpDelete Part000.KVAppPrefix "welcome_message"]
  | (CmdHelp, _, _) | (CmdPreview, _, _) => []
  end.

(** The line a request of part_000 leaves in the log: the error of a
    write that was not stored (nil when the platform declined it). *)
Definition log_line_of (r : Request) : list (option error) :=
  match r with
  | (CmdSetChannelWelcome, p, _) => if stores p then [] else [fault p]
  | _ => []
  end.

(** The store after a request of part_000. *)
Definition store_after (r : Request) (m : gmap (string * string) JSON)
    : gmap (string * string) JSON :=
  match r with
  | (CmdSetChannelWelcome, p, body) =>
      if stores p then <[welcome_slot := submitted_message body]> m else m
  | (CmdDeleteChannelWelcome, p, _) =>
      if serves p then delete welcome_slot m else m
  | _ => m
  end.

(** The command paths the leaves of a catalogue of bindings submit to. *)
Definition menu_paths (bs : list Binding) : list (option string) :=
  map (fun b => Path <$> binding_call b) (flat_map leaves bs).

Definition menu_labels (bs : list Binding) : list string :=
  map Binding_Label (flat_map leaves bs).

(** The two texts of [get_channel_welcome] and [list] for a failed read
    and of [list] for a read that came back. *)
Definition guidance : string :=
  "You need to set the `welcome_messages` with set_welcome_message".

(** JSON values that are neither a string nor null. *)
Definition not_a_text (v : JSON) : bool :=
  match v with
  | JString _ | JNull => false
  | _ => true
  end.

(** * Properties *)

(** ** Formatting without operands *)

Lemma contains_percent_cons (c : Ascii.ascii) (rest : string) :
  contains "%" (String c rest) = Ascii.eqb c "%" || contains "%" rest.
Proof.
  cbn [contains String.prefix].
  destruct (ascii_dec "%" c) as [<-|Hne].
  - by destruct rest.
  - destruct (Ascii.eqb_spec c "%") as [->|_]; [done | reflexivity].
Qed.

Lemma doPrintf_plain (s : string) (n : nat) :
  contains "%" s = false -> String.length s <= n -> doPrintf n s = s.
Proof.
  revert n. induction s as [|c rest IH]; intros n Hplain Hlen.
  - by destruct n.
  - destruct n as [|n]; [simpl in Hlen; lia|].
    rewrite contains_percent_cons in Hplain.
    apply orb_false_iff in Hplain as [Hc Hrest].
    cbn [doPrintf]. rewrite Hc. simpl in Hlen. rewrite IH; [done | done | lia].
Qed.

(** A text without '%' is its own rendering. *)
Lemma Sprintf_plain (s : string) : contains "%" s = false -> Sprintf s = s.
Proof. intros Hplain. by apply doPrintf_plain. Qed.

Lemma append_writes (a b : string) : b <> "" -> a +:+ b <> "".
Proof. destruct a; [done | discriminate]. Qed.

Lemma verb_of_writes (s : string) (good : bool) : fst (verb_of s good) <> "".
Proof.
  destruct s as [|c rest]; [discriminate|]. cbn [verb_of].
  destruct (decode_verb c rest) as [verb rest'].
  destruct (Ascii.eqb c "%"), good; discriminate.
Qed.

Lemma directive_writes (s : string) : fst (directive s) <> "".
Proof.
  unfold directive.
  destruct (argNumber _ _) as [[s1 a1] g1].
  destruct (width_of _ _ _) as [[[ow s2] a2] g2].
  destruct (precision_of _ _ _) as [[[op s3] a3] g3].
  destruct (if a3 then _ else _) as [[s4 a4] g4].
  pose proof (verb_of_writes s4 g4) as Hv.
  destruct (verb_of s4 g4) as [ov rest]. cbn [fst] in *.
  by do 2 apply append_writes.
Qed.

(** Only the empty format renders as the empty text. *)
Lemma Sprintf_empty (s : string) : Sprintf s = "" -> s = "".
Proof.
  destruct s as [|c rest]; [done|]. unfold Sprintf. cbn [String.length doPrintf].
  destruct (Ascii.eqb c "%"); [|discriminate].
  pose proof (directive_writes rest) as Hw.
  destruct (directive rest) as [out rest']. cbn [fst] in Hw.
  intros Hempty. destruct out; [done | discriminate].
Qed.

(** *** The length of the format is fuel enough *)

Lemma skip_flags_shorter (s : string) :
  String.length (skip_flags s) <= String.length s.
Proof.
  induction s as [|c rest IH]; [done|]. cbn [skip_flags].
  destruct (is_flag c); simpl; lia.
Qed.

Lemma parsenum_from_shorter (s : string) (num : N) (isnum : bool) :
  String.length (snd (parsenum_from num isnum s)) <= String.length s.
Proof.
  revert num isnum. induction s as [|c rest IH]; intros num isnum; [done|].
  cbn [parsenum_from]. destruct (digit_of c) as [d|]; [|done].
  destruct (1000000 <? num)%N; [simpl; lia|].
  specialize (IH (num * 10 + d)%N true). simpl. lia.
Qed.

Lemma up_to_bracket_shorter (s content after : string) :
  up_to_bracket s = Some (content, after) ->
  String.length after <= String.length s.
Proof.
  revert content. induction s as [|c rest IH]; intros content; [done|].
  cbn [up_to_bracket]. destruct (Ascii.eqb c "]").
  - intros [= _ <-]. simpl. lia.
  - destruct (up_to_bracket rest) as [[content' after']|]; [|done].
    simpl. intros [= _ <-]. specialize (IH content' eq_refl). lia.
Qed.

Lemma parseArgNumber_shorter (s : string) :
  String.length (fst (parseArgNumber s)) <= String.length s.
Proof.
  destruct s as [|c inner]; [done|]. unfold parseArgNumber.
  destruct (String.length (String c inner) <? 3)%nat; [simpl; lia|].
  destruct (up_to_bracket inner) as [[content after]|] eqn:Hb; [|simpl; lia].
  apply up_to_bracket_shorter in Hb.
  destruct (parsenum content) as [[] []]; simpl; lia.
Qed.

Lemma argNumber_shorter (s : string) (good : bool) :
  String.length (fst (fst (argNumber s good))) <= String.length s.
Proof.
  unfold argNumber. destruct s as [|c inner]; [done|].
  destruct (Ascii.eqb_spec c "[") as [->|Hc].
  - pose proof (parseArgNumber_shorter (String "[" inner)) as H.
    destruct (parseArgNumber (String "[" inner)) as [rest ok]. exact H.
  - destruct c as [[] [] [] [] [] [] [] []]; try done.
Qed.

Lemma decode_verb_shorter (c : Ascii.ascii) (rest : string) :
  String.length (snd (decode_verb c rest)) <= String.length rest.
Proof.
  unfold decode_verb. destruct (byte_of c <? 128)%N; [done|].
  destruct (first (byte_of c)) as [[[[|[|[|[|[|size]]]]] lo] hi]|]; try done.
  - destruct rest as [|c1 r1]; [done|].
    destruct (between lo hi c1); simpl; lia.
  - destruct rest as [|c1 [|c2 r2]]; try done.
    destruct (between lo hi c1 && between 128 191 c2); simpl; lia.
  - destruct rest as [|c1 [|c2 [|c3 r3]]]; try done.
    destruct (between lo hi c1 && between 128 191 c2 && between 128 191 c3);
      simpl; lia.
Qed.

Lemma width_of_shorter (s : string) (afterIndex good : bool) :
  String.length (snd (fst (fst (width_of s afterIndex good)))) <= String.length s.
Proof.
  unfold width_of.
  pose proof (parsenum_from_shorter s 0%N false) as Hnum. fold (parsenum s) in Hnum.
  destruct (parsenum s) as [isnum rest].
  destruct s as [|c rest0]; [exact Hnum|].
  destruct (Ascii.eqb_spec c "*") as [->|Hc]; [simpl; lia|].
  destruct c as [[] [] [] [] [] [] [] []]; try done.
Qed.

Lemma precision_of_shorter (s : string) (afterIndex good : bool) :
  String.length (snd (fst (fst (precision_of s afterIndex good)))) <= String.length s.
Proof.
  unfold precision_of. destruct s as [|c rest]; [done|].
  destruct (Ascii.eqb_spec c ".") as [->|Hc].
  - pose proof (argNumber_shorter rest (good && negb afterIndex)) as Harg.
    destruct (argNumber rest (good && negb afterIndex)) as [[s' found] good'].
    cbn [fst] in Harg.
    pose proof (parsenum_from_shorter s' 0%N false) as Hnum. fold (parsenum s') in Hnum.
    destruct s' as [|c' rest']; [simpl in *; lia|].
    destruct (Ascii.eqb_spec c' "*") as [->|Hc']; [simpl in *; lia|].
    destruct c' as [[] [] [] [] [] [] [] []]; try done; simpl in *; lia.
  - destruct c as [[] [] [] [] [] [] [] []]; try done.
Qed.

Lemma verb_of_shorter (s : string) (good : bool) :
  String.length (snd (verb_of s good)) <= String.length s.
Proof.
  destruct s as [|c rest]; [done|]. cbn [verb_of].
  pose proof (decode_verb_shorter c rest) as Hd.
  destruct (decode_verb c rest) as [verb rest'].
  destruct (Ascii.eqb c "%"), good; simpl in *; lia.
Qed.

Lemma directive_shorter (s : string) :
  String.length (snd (directive s)) <= String.length s.
Proof.
  unfold directive.
  pose proof (skip_flags_shorter s) as H0.
  pose proof (argNumber_shorter (skip_flags s) true) as H1.
  destruct (argNumber _ _) as [[s1 a1] g1]. cbn [fst] in H1.
  pose proof (width_of_shorter s1 a1 g1) as H2.
  destruct (width_of _ _ _) as [[[ow s2] a2] g2]. cbn [fst snd] in H2.
  pose proof (precision_of_shorter s2 a2 g2) as H3.
  destruct (precision_of _ _ _) as [[[op s3] a3] g3]. cbn [fst snd] in H3.
  pose proof (argNumber_shorter s3 g3) as H4.
  assert (H5 : forall s4 a4 g4,
            (if a3 then (s3, a3, g3) else argNumber s3 g3) = (s4, a4, g4) ->
            String.length s4 <= String.length s3).
  { intros s4 a4 g4. destruct a3; [by intros [= <- _ _]|].
    intros Heq. by rewrite Heq in H4. }
  destruct (if a3 then _ else _) as [[s4 a4] g4].
  specialize (H5 s4 a4 g4 eq_refl).
  pose proof (verb_of_shorter s4 g4) as H6.
  destruct (verb_of s4 g4) as [ov rest]. cbn [snd] in *. lia.
Qed.

(** More fuel than the length of the format changes nothing. *)
Lemma doPrintf_fuel (n m : nat) (s : string) :
  String.length s <= n -> String.length s <= m -> doPrintf n s = doPrintf m s.
Proof.
  revert m s. induction n as [|n IH]; intros m s Hn Hm.
  - destruct s; [by destruct m | simpl in Hn; lia].
  - destruct s as [|c rest]; [by destruct m|].
    destruct m as [|m]; [simpl in Hm; lia|]. simpl in Hn, Hm.
    cbn [doPrintf]. destruct (Ascii.eqb c "%").
    + pose proof (directive_shorter rest) as Hd.
      destruct (directive rest) as [out rest']. cbn [snd] in Hd.
      f_equal. apply IH; lia.
    + f_equal. apply IH; lia.
Qed.

(** ** What each call to the client does *)

Section ClientRuns.
Variables (p : Platform) (client : Client) (pfx id : string) (w : World).

Lemma KVGet_run (ref : string) :
  KVGet p client pfx id ref w =
  (Done match fault p, kv w !! (pfx, id) with
        | Some e, _ => (ref, Some e)
        | None, None => (ref, Some ErrNotFound)
        | None, Some v => unmarshal_string v ref
        end,
   record_op (OpGet pfx id) w).
Proof.
  unfold KVGet, mbind, M_bind, bind, modify, gets; simpl.
  destruct (fault p); [reflexivity|].
  destruct (kv w !! (pfx, id)); reflexivity.
Qed.

Lemma KVSet_run (value : JSON) :
  KVSet p client pfx id value w =
  match fault p with
  | Some e => (Done (false, Some e), record_op (OpSet pfx id value) w)
  | None =>
      if declines p
      then (Done (false, None), record_op (OpSet pfx id value) w)
      else (Done (true, None),
            with_kv (insert (pfx, id) value) (record_op (OpSet pfx id value) w))
  end.
Proof.
  unfold KVSet, mbind, M_bind, bind, modify; simpl.
  destruct (fault p); [reflexivity|].
  destruct (declines p); reflexivity.
Qed.

Lemma KVDelete_run :
  KVDelete p client pfx id w =
  match fault p with
  | Some e => (Done (Some e), record_op (OpDelete pfx id) w)
  | None => (Done None, with_kv (delete (pfx, id)) (record_op (OpDelete pfx id) w))
  end.
Proof.
  unfold KVDelete, mbind, M_bind, bind, modify; simpl.
  destruct (fault p); reflexivity.
Qed.
End ClientRuns.

(** ** What each handler of part_000 does *)

Section HandlerRuns.
Import Part000.
Variables (p : Platform) (body : Body) (w : World).

Let c : CallRequest := fst (Decode body zeroCallRequest).

Lemma GetChannelWelcomeCall_run :
  GetChannelWelcomeCall p body w =
  (Done (NewTextResponse
           match fault p, kv w !! welcome_slot with
           | None, Some (JString s) => s
           | None, Some JNull => ""
           | _, _ => "You need to set the `welcome_messages` with set_welcome_message"
           end),
   record_op (OpGet KVAppPrefix "welcome_message") w).
Proof.
  unfold GetChannelWelcomeCall, mbind, M_bind, bind, WriteJSON, ret.
  rewrite KVGet_run. unfold welcome_slot.
  destruct (fault p); [reflexivity|].
  destruct (kv w !! (KVAppPrefix, "welcome_message")) as [[]|]; reflexivity.
Qed.

Lemma ListCall_run :
  ListCall p body w =
  (Done (NewTextResponse
           match read_error p w "" with
           | Some _ => "You need to set the `welcome_messages` with set_welcome_message"
           | None => "Shown Welcome Bot List"
           end),
   record_op (OpGet KVAppPrefix "welcome_message") w).
Proof.
  unfold ListCall, mbind, M_bind, bind, WriteJSON, ret, read_error.
  rewrite KVGet_run. unfold welcome_slot.
  destruct (fault p); [reflexivity|].
  destruct (kv w !! (KVAppPrefix, "welcome_message")) as [[]|]; reflexivity.
Qed.

Lemma SetChannelWelcomeCall_run :
  SetChannelWelcomeCall p body w =
  let op := OpSet KVAppPrefix "welcome_message" (value_at (Values c) "message") in
  match fault p with
  | Some e =>
      (Done (NewTextResponse "We couldn't set your message"),
       add_log (Some e) (record_op op w))
  | None =>
      if declines p
      then (Done (NewTextResponse "We couldn't set your message"),
            add_log None (record_op op w))
      else (Done (NewTextResponse "Your message has been set"),
            with_kv (insert welcome_slot (value_at (Values c) "message")) (record_op op w))
  end.
Proof.
  unfold SetChannelWelcomeCall, mbind, M_bind, bind, WriteJSON, ret.
  rewrite KVSet_run. unfold welcome_slot, c.
  destruct (fault p); [reflexivity|].
  destruct (declines p); reflexivity.
Qed.

Lemma DeleteChannelWelcomeCall_run :
  DeleteChannelWelcomeCall p body w =
  (Done (NewTextResponse "Shown Welcome Bot Delete channel welcome"),
   match fault p with
   | Some _ => record_op (OpDelete KVAppPrefix "welcome_message") w
   | None => with_kv (delete welcome_slot) (record_op (OpDelete KVAppPrefix "welcome_message") w)
   end).
Proof.
  unfold DeleteChannelWelcomeCall, mbind, M_bind, bind, WriteJSON, ret.
  rewrite KVDelete_run. unfold welcome_slot.
  destruct (fault p); reflexivity.
Qed.

Lemma HelpCall_run : HelpCall p body w = (Done (NewTextResponse commandHelp), w).
Proof. reflexivity. Qed.

Lemma PreviewCall_run :
  PreviewCall p body w = (Done (NewTextResponse "Shown Welcome Bot Preview"), w).
Proof. reflexivity. Qed.
End HandlerRuns.

(** ** Storing and reading back *)

Import Part000.

(** What [get_channel_welcome] answers after a stored write: the
    response built with the stored text as its format. *)
Lemma set_then_get_formats_text
    (text : string) (cc : CallContext) (vals : gmap string JSON)
    (p1 p2 : Platform) (body2 : Body) (w : World) :
  fault p1 = None -> declines p1 = false -> fault p2 = None ->
  let req := Encoded {| Context_ := cc; Values := <["message" := JString text]> vals |} in
  fst (SetChannelWelcomeCall p1 req w)
    = Done (NewTextResponse "Your message has been set") /\
  fst (GetChannelWelcomeCall p2 body2 (snd (SetChannelWelcomeCall p1 req w)))
    = Done (NewTextResponse text).
Proof.
  intros Hup Hacc Hup2 req.
  rewrite SetChannelWelcomeCall_run, Hup, Hacc. cbv zeta.
  split; [reflexivity|].
  rewrite GetChannelWelcomeCall_run, Hup2. cbn [snd kv with_kv record_op].
  rewrite lookup_insert_eq. unfold value_at. cbn [fst req Decode Values].
  by rewrite lookup_insert_eq.
Qed.

(** X19. A text without '%' comes back exactly as it was set: when
    the platform stores the write and serves the read,
    [get_channel_welcome] after [set_channel_welcome] of such a text
    answers with a text response whose text is that text. *)
Theorem set_then_get_returns_plain_text
    (text : string) (cc : CallContext) (vals : gmap string JSON)
    (p1 p2 : Platform) (body2 : Body) (w : World) :
  contains "%" text = false ->
  fault p1 = None -> declines p1 = false -> fault p2 = None ->
  let req := Encoded {| Context_ := cc; Values := <["message" := JString text]> vals |} in
  fst (GetChannelWelcomeCall p2 body2 (snd (SetChannelWelcomeCall p1 req w)))
    = Done {| Type_ := CallResponseTypeOK; Text := text |}.
Proof.
  intros Hplain Hup Hacc Hup2.
  destruct (set_then_get_formats_text text cc vals p1 p2 body2 w Hup Hacc Hup2)
    as [_ Hget].
  cbv zeta in Hget |- *. rewrite Hget.
  unfold NewTextResponse. by rewrite Sprintf_plain.
Qed.

Lemma set_then_get_returns_plain_text_witness :
  fst (GetChannelWelcomeCall healthy
         (Encoded {| Context_ := in_open_channel; Values := ∅ |})
         (snd (SetChannelWelcomeCall healthy
                 (Encoded {| Context_ := in_open_channel;
                             Values := <["message" := JString "Welcome to Acme!"]> ∅ |})
                 emptyWorld)))
  = Done {| Type_ := CallResponseTypeOK; Text := "Welcome to Acme!" |}.
Proof.
  exact (set_then_get_returns_plain_text "Welcome to Acme!" in_open_channel ∅
           healthy healthy _ emptyWorld eq_refl eq_refl eq_refl eq_refl).
Defined.

(** C1, on the code: the text "100% welcome" is stored as it was
    submitted, but [get_channel_welcome] hands it to the response as a
    format, and it comes back as "100%!w(MISSING)elcome". *)
Theorem percent_text_does_not_round_trip :
  let set := Encoded {| Context_ := in_open_channel;
                        Values := {[ "message" := JString "100% welcome" ]} |} in
  let get := Encoded {| Context_ := in_open_channel; Values := ∅ |} in
  let w1 := snd (SetChannelWelcomeCall healthy set emptyWorld) in
  fst (SetChannelWelcomeCall healthy set emptyWorld)
    = Done {| Type_ := CallResponseTypeOK; Text := "Your message has been set" |} /\
  kv w1 !! welcome_slot = Some (JString "100% welcome") /\
  fst (GetChannelWelcomeCall healthy get w1)
    = Done {| Type_ := CallResponseTypeOK; Text := "100%!w(MISSING)elcome" |}.
Proof. vm_compute. repeat split. Qed.

(** C5. When nothing is stored under the welcome key (never set, or
    deleted), [get_channel_welcome] answers, whatever the platform and
    the body, with a text response (not an error response) carrying the
    "You need to set..." guidance, which is not the empty string. *)
Theorem get_unset_gives_guidance (p : Platform) (body : Body) (w : World) :
  kv w !! welcome_slot = None ->
  exists r,
    fst (GetChannelWelcomeCall p body w) = Done r /\
    Type_ r = CallResponseTypeOK /\
    Text r = "You need to set the `welcome_messages` with set_welcome_message" /\
    Text r <> "".
Proof.
  intros Habsent. rewrite GetChannelWelcomeCall_run, Habsent.
  eexists; split; [reflexivity|].
  destruct (fault p); simpl; repeat split; discriminate.
Qed.

Lemma get_unset_gives_guidance_witness :
  exists r,
    fst (GetChannelWelcomeCall healthy NoBody emptyWorld) = Done r /\
    Type_ r = CallResponseTypeOK /\
    Text r = "You need to set the `welcome_messages` with set_welcome_message" /\
    Text r <> "".
Proof.
  apply (get_unset_gives_guidance healthy NoBody emptyWorld). reflexivity.
Defined.

(** The test [err != nil || !isSet] on every pair [KVSet] can return. *)
Lemma set_failed_spec (isSet : bool) (err : option error) :
  set_failed isSet err = true <-> err <> None \/ isSet = false.
Proof.
  destruct err as [e|], isSet; simpl; split; intros H;
    try reflexivity; try discriminate; auto.
  - destruct H as [H|H]; [congruence | discriminate].
Qed.


(** C7. [delete_channel_welcome] answers with its confirmation text on
    every store, holding a message or not, and whatever the platform
    does; once the platform has carried the delete out, the slot is
    empty: a read of it reports not-found and [get_channel_welcome]
    answers with the guidance text. *)
Theorem delete_confirms_and_clears (p : Platform) (body : Body) (w : World) :
  let w' := snd (DeleteChannelWelcomeCall p body w) in
  fst (DeleteChannelWelcomeCall p body w)
    = Done (NewTextResponse "Shown Welcome Bot Delete channel welcome") /\
  (fault p = None ->
     kv w' !! welcome_slot = None /\
     (forall client ref,
        fst (KVGet healthy client KVAppPrefix "welcome_message" ref w')
          = Done (ref, Some ErrNotFound)) /\
     (forall p2 body2,
        fst (GetChannelWelcomeCall p2 body2 w')
          = Done (NewTextResponse
                    "You need to set the `welcome_messages` with set_welcome_message"))).
Proof.
  intros w'. subst w'. rewrite DeleteChannelWelcomeCall_run. simpl.
  split; [reflexivity|]. intros Hup. rewrite Hup.
  assert (Hgone : kv (with_kv (delete welcome_slot)
                        (record_op (OpDelete KVAppPrefix "welcome_message") w))
                  !! welcome_slot = None) by (simpl; apply lookup_delete_eq).
  split; [exact Hgone|]. split.
  - intros client ref. rewrite KVGet_run.
    change (KVAppPrefix, "welcome_message") with welcome_slot.
    rewrite Hgone. reflexivity.
  - intros p2 body2. rewrite GetChannelWelcomeCall_run, Hgone.
    destruct (fault p2); reflexivity.
Qed.

Lemma delete_confirms_and_clears_witness :
  let stored := with_kv (insert welcome_slot (JString "Welcome!")) emptyWorld in
  kv stored !! welcome_slot = Some (JString "Welcome!") /\
  fst (GetChannelWelcomeCall healthy NoBody
         (snd (DeleteChannelWelcomeCall healthy NoBody stored)))
    = Done (NewTextResponse
              "You need to set the `welcome_messages` with set_welcome_message").
Proof.
  intros stored. split; [vm_compute; reflexivity|].
  destruct (delete_confirms_and_clears healthy NoBody stored) as [_ Hclear].
  destruct (Hclear eq_refl) as (_ & _ & Hget).
  exact (Hget healthy NoBody).
Defined.

(** C10. The text of [list] is one of two fixed strings, chosen only by
    whether the read of the store came back with an error; on any two
    stores that hold a welcome text, whatever the two texts, [list]
    answers the same. *)
Theorem list_reply_ignores_stored_text (p : Platform) :
  (forall body w,
     exists r,
       fst (ListCall p body w) = Done r /\
       (Text r = "Shown Welcome Bot List" \/
        Text r = "You need to set the `welcome_messages` with set_welcome_message") /\
       (Text r = "Shown Welcome Bot List" <-> read_error p w "" = None)) /\
  (forall body1 body2 w1 w2 t1 t2,
     kv w1 !! welcome_slot = Some (JString t1) ->
     kv w2 !! welcome_slot = Some (JString t2) ->
     fst (ListCall p body1 w1) = fst (ListCall p body2 w2)).
Proof.
  split.
  - intros body w. rewrite ListCall_run. eexists; split; [reflexivity|]. simpl.
    destruct (read_error p w "") as [e|]; split; auto; split; intros H;
      try reflexivity; discriminate.
  - intros body1 body2 w1 w2 t1 t2 H1 H2.
    rewrite !ListCall_run. unfold read_error. rewrite H1, H2.
    destruct (fault p); reflexivity.
Qed.

Lemma list_reply_ignores_stored_text_witness :
  fst (ListCall healthy NoBody (with_kv (insert welcome_slot (JString "Hello")) emptyWorld))
  = fst (ListCall healthy NoBody
           (with_kv (insert welcome_slot (JString "Welcome to Acme!")) emptyWorld)).
Proof.
  apply (proj2 (list_reply_ignores_stored_text healthy) NoBody NoBody _ _
               "Hello" "Welcome to Acme!");
    vm_compute; reflexivity.
Defined.

(** ** One slot for every channel and team *)

(** What a handler of part_000 adds to the log of key-value calls, and
    where it may change the store. *)
Lemma handler_touches_only_slot (cmd : Command) (p : Platform) (body : Body) (w : World) :
  let w' := snd (handler cmd p body w) in
  (exists ops, kvlog w' = (kvlog w ++ ops)%list /\
               Forall (fun op => op_target op = welcome_slot) ops) /\
  (forall k, k <> welcome_slot -> kv w' !! k = kv w !! k).
Proof.
  destruct cmd; cbv zeta; cbn [handler].
  - rewrite HelpCall_run. simpl. split; [exists []; split; [by rewrite app_nil_r | constructor] | done].
  - rewrite ListCall_run. simpl. split; [eexists [_]; split; [done | by repeat constructor] | done].
  - rewrite PreviewCall_run. simpl. split; [exists []; split; [by rewrite app_nil_r | constructor] | done].
  - rewrite SetChannelWelcomeCall_run. simpl.
    destruct (fault p); [|destruct (declines p)]; simpl;
      (split; [eexists [_]; split; [done | by repeat constructor] |]);
      intros k Hk; try done.
    by rewrite lookup_insert_ne.
  - rewrite GetChannelWelcomeCall_run. simpl. split; [eexists [_]; split; [done | by repeat constructor] | done].
  - rewrite DeleteChannelWelcomeCall_run. simpl.
    destruct (fault p); simpl;
      (split; [eexists [_]; split; [done | by repeat constructor] |]);
      intros k Hk; try done.
    by rewrite lookup_delete_ne.
Qed.

Lemma serve_touches_only_slot (reqs : list (Command * Platform * Body)) (w : World) :
  (exists ops, kvlog (serve reqs w) = (kvlog w ++ ops)%list /\
               Forall (fun op => op_target op = welcome_slot) ops) /\
  (forall k, k <> welcome_slot -> kv (serve reqs w) !! k = kv w !! k).
Proof.
  revert w. induction reqs as [|[[cmd p] body] rest IH]; intros w; simpl.
  - split; [exists []; split; [by rewrite app_nil_r | constructor] | done].
  - destruct (handler_touches_only_slot cmd p body w) as [(ops1 & Hlog1 & Hall1) Hkv1].
    destruct (IH (snd (handler cmd p body w))) as [(ops2 & Hlog2 & Hall2) Hkv2].
    split.
    + exists (ops1 ++ ops2)%list. split.
      * by rewrite Hlog2, Hlog1, app_assoc.
      * by apply Forall_app.
    + intros k Hk. by rewrite Hkv2, Hkv1.
Qed.

(** C2. Every key-value call made by a handler of part_000, whatever the
    command, the platform and the body (so whatever channel or team the
    call comes from), addresses the key "welcome_message" under the
    prefix "wb", and no other key of the store changes; a store that
    started empty therefore never holds more than that one entry,
    however many requests were served. *)
Theorem kv_calls_use_one_fixed_key :
  welcome_slot = ("wb", "welcome_message") /\
  (forall cmd p body w,
     let w' := snd (handler cmd p body w) in
     (exists ops, kvlog w' = (kvlog w ++ ops)%list /\
                  Forall (fun op => op_target op = ("wb", "welcome_message")) ops) /\
     (forall k, k <> ("wb", "welcome_message") -> kv w' !! k = kv w !! k)) /\
  (forall reqs,
     Forall (fun op => op_target op = ("wb", "welcome_message"))
            (kvlog (serve reqs emptyWorld)) /\
     dom (kv (serve reqs emptyWorld)) ⊆ {[ ("wb", "welcome_message") ]} /\
     size (kv (serve reqs emptyWorld)) <= 1).
Proof.
  split; [reflexivity|]. split.
  - intros cmd p body w. apply handler_touches_only_slot.
  - intros reqs.
    destruct (serve_touches_only_slot reqs emptyWorld) as [(ops & Hlog & Hall) Hkv].
    assert (Hdom : dom (kv (serve reqs emptyWorld)) ⊆ {[ welcome_slot ]}).
    { intros k Hk. apply elem_of_singleton.
      destruct (decide (k = welcome_slot)) as [|Hne]; [done|].
      apply elem_of_dom in Hk. rewrite (Hkv k Hne) in Hk.
      simpl in Hk. rewrite lookup_empty in Hk. by destruct Hk. }
    split; [by rewrite Hlog|]. split; [exact Hdom|].
    rewrite <- size_dom. apply subseteq_size in Hdom.
    by rewrite size_singleton in Hdom.
Qed.

(** ** The help text *)

(** C3, as stated, fails: the text returned by [help] does not name all
    six commands; the word "help" does not occur in it. *)
Lemma help_text_does_not_list_six :
  ~ (forall p body w,
       exists r, fst (HelpCall p body w) = Done r /\
                 Forall (fun cmd => mentions (Text r) cmd = true) all_commands).
Proof.
  intros H. destruct (H healthy NoBody emptyWorld) as (r & Hr & Hall).
  rewrite HelpCall_run in Hr. simpl in Hr. injection Hr as <-.
  apply Forall_cons in Hall as [Hhelp _].
  vm_compute in Hhelp. discriminate.
Qed.

(** C3, amended. For every request, a missing body included, [help]
    answers with the static usage text [commandHelp] and touches nothing;
    that text has a usage line for each of the five commands preview,
    list, set_channel_welcome, get_channel_welcome and
    delete_channel_welcome, and none for help. *)
Theorem help_returns_usage_of_five_commands :
  (forall p body w,
     HelpCall p body w
       = (Done {| Type_ := CallResponseTypeOK; Text := commandHelp |}, w)) /\
  (forall cmd, documents commandHelp cmd = true <-> cmd <> CmdHelp) /\
  (forall cmd, mentions commandHelp cmd = true <-> cmd <> CmdHelp).
Proof.
  split; [intros; reflexivity|].
  split; intros cmd; destruct cmd; vm_compute; split; intros H;
    try reflexivity; try discriminate; try congruence.
Qed.

(** ** Direct conversations *)

(** [set_channel_welcome] never looks at the context of the call. *)
Lemma set_ignores_context (cc cc' : CallContext) (vals : gmap string JSON)
    (p : Platform) (w : World) :
  SetChannelWelcomeCall p (Encoded {| Context_ := cc; Values := vals |}) w
  = SetChannelWelcomeCall p (Encoded {| Context_ := cc'; Values := vals |}) w.
Proof. by rewrite !SetChannelWelcomeCall_run. Qed.

(** C4, on the code: called from a direct conversation,
    [set_channel_welcome] is not rejected; it issues the [KVSet], the
    text is stored and the reply is the confirmation. *)
Theorem set_in_direct_channel_writes :
  let req := Encoded {| Context_ := in_direct_channel;
                        Values := {[ "message" := JString "hello" ]} |} in
  let out := SetChannelWelcomeCall healthy req emptyWorld in
  fst out = Done (NewTextResponse "Your message has been set") /\
  kvlog (snd out) = [OpSet "wb" "welcome_message" (JString "hello")] /\
  kv (snd out) !! ("wb", "welcome_message") = Some (JString "hello").
Proof. vm_compute. repeat split. Qed.

(** ** Preview *)

(** C8, on the code: [preview] answers with one fixed placeholder in both
    sources and leaves the world as it was (no key-value call); called
    by alice for the team Acme, the text shows neither the user nor the
    team, so nothing was rendered from the caller's identity. *)
Theorem preview_is_a_fixed_placeholder :
  (forall p body w,
     PreviewCall p body w = (Done (NewTextResponse "Shown Welcome Bot Preview"), w) /\
     MainGo.PreviewCall p body w = (Done (NewTextResponse "Shown Welcome Bot Preview"), w)) /\
  (let cc := {| BotUserID := "bot"; BotAccessToken := "token";
                MattermostSiteURL := "http://localhost:8065";
                ActingUser := Some alice; ContextChannel := None;
                ContextTeam := Some acme |} in
   let req := Encoded {| Context_ := cc; Values := {[ "team_name" := JString "Acme" ]} |} in
   exists r,
     fst (PreviewCall healthy req emptyWorld) = Done r /\
     contains (User_Username alice) (Text r) = false /\
     contains (Team_Name acme) (Text r) = false).
Proof.
  split; [intros; split; reflexivity|].
  eexists; split; [reflexivity|]. vm_compute. split; reflexivity.
Qed.

(** ** Bodies that do not decode *)

(** Every handler of part_000 writes a text response, whatever the body
    and the platform. *)
Lemma part000_handlers_always_respond (cmd : Command) (p : Platform) (body : Body) (w : World) :
  exists r, fst (handler cmd p body w) = Done r /\ Type_ r = CallResponseTypeOK.
Proof.
  destruct cmd; cbn [handler].
  - rewrite HelpCall_run; eauto.
  - rewrite ListCall_run; eauto.
  - rewrite PreviewCall_run; eauto.
  - rewrite SetChannelWelcomeCall_run; simpl.
    destruct (fault p); [|destruct (declines p)]; eauto.
  - rewrite GetChannelWelcomeCall_run; eauto.
  - rewrite DeleteChannelWelcomeCall_run; eauto.
Qed.

(** In main.go every handler but [HelpCall] writes its response without
    reading the request. *)
Lemma maingo_other_handlers_respond (cmd : Command) (p : Platform) (body : Body) (w : World) :
  cmd <> CmdHelp ->
  exists r, MainGo.handler cmd p body w = (Done r, w) /\ Type_ r = CallResponseTypeOK.
Proof. destruct cmd; intros Hne; try congruence; simpl; eauto. Qed.

(** [HelpCall] of main.go reads [c.Context.ActingUser.Id]: whenever the
    decoder left the acting user nil, the handler panics. *)
Lemma maingo_help_needs_acting_user (p : Platform) (body : Body) (w : World) :
  ActingUser (Context_ (fst (Decode body zeroCallRequest))) = None ->
  exists msg, MainGo.HelpCall p body w = (Panic msg, w).
Proof.
  intros Hnil. unfold MainGo.HelpCall, mbind, M_bind, bind, deref_ActingUser.
  rewrite Hnil. simpl. eauto.
Qed.

(** C9, on the code: [HelpCall] of main.go, given an empty body, panics
    on the nil acting user before it writes anything; no response is
    produced and no message is posted. *)
Theorem maingo_help_panics_on_empty_body (p : Platform) (w : World) :
  MainGo.HelpCall p NoBody w
  = (Panic "runtime error: invalid memory address or nil pointer dereference", w).
Proof. reflexivity. Qed.

(** ** The failure branches on concrete calls *)

Example set_on_unreachable_platform :
  let req := Encoded {| Context_ := zeroContext;
                        Values := {[ "message" := JString "hello" ]} |} in
  let out := SetChannelWelcomeCall (unreachable "connection refused") req emptyWorld in
  fst out = Done (NewTextResponse "We couldn't set your message") /\
  kv (snd out) !! welcome_slot = None /\
  logged (snd out) = [Some (ErrUnavailable "connection refused")].
Proof. vm_compute. repeat split. Qed.

Example set_declined_by_platform :
  fst (SetChannelWelcomeCall declining NoBody emptyWorld)
  = Done (NewTextResponse "We couldn't set your message").
Proof. reflexivity. Qed.

Example paths_of_main :
  map command_of_path ["/help"; "/list"; "/preview"; "/set_channel_welcome";
                       "/get_channel_welcome"; "/delete_channel_welcome"; "/bindings"]
  = [Some CmdHelp; Some CmdList; Some CmdPreview; Some CmdSetChannelWelcome;
     Some CmdGetChannelWelcome; Some CmdDeleteChannelWelcome; None].
Proof. reflexivity. Qed.

(** * Further properties of the handlers *)

(** ** One request *)

Lemma stores_true (p : Platform) :
  stores p = true <-> fault p = None /\ declines p = false.
Proof.
  unfold stores, serves. destruct (fault p), (declines p); simpl;
    split; try discriminate; try tauto; intros [? ?]; discriminate.
Qed.

(** The whole effect of a handler of part_000 on the world. *)
Lemma handler_world (cmd : Command) (p : Platform) (body : Body) (w : World) :
  kv (snd (handler cmd p body w)) = store_after (cmd, p, body) (kv w) /\
  kvlog (snd (handler cmd p body w)) = (kvlog w ++ kv_call_of (cmd, p, body))%list /\
  posts (snd (handler cmd p body w)) = posts w /\
  logged (snd (handler cmd p body w)) = (logged w ++ log_line_of (cmd, p, body))%list.
Proof.
  destruct cmd; cbn [handler].
  - rewrite HelpCall_run. simpl. by rewrite !app_nil_r.
  - rewrite ListCall_run. simpl. by rewrite !app_nil_r.
  - rewrite PreviewCall_run. simpl. by rewrite !app_nil_r.
  - rewrite SetChannelWelcomeCall_run. cbv zeta.
    unfold store_after, log_line_of, kv_call_of, submitted_message, decoded, stores, serves.
    destruct (fault p); [|destruct (declines p)]; simpl; by rewrite ?app_nil_r.
  - rewrite GetChannelWelcomeCall_run. simpl. by rewrite !app_nil_r.
  - rewrite DeleteChannelWelcomeCall_run.
    unfold store_after, serves. destruct (fault p); simpl; by rewrite !app_nil_r.
Qed.

(** X1. [set_channel_welcome] reads two things of the request: its
    context, from which it builds the client, and the form value
    "message". Two bodies that agree on both get the same reply and
    leave the same world, whatever their other form values (team_name
    among them). *)
Theorem set_depends_only_on_message (p : Platform) (body1 body2 : Body) (w : World) :
  Context_ (decoded body1) = Context_ (decoded body2) ->
  submitted_message body1 = submitted_message body2 ->
  SetChannelWelcomeCall p body1 w = SetChannelWelcomeCall p body2 w.
Proof.
  unfold submitted_message, decoded. intros _ Hsame.
  rewrite !SetChannelWelcomeCall_run. cbv zeta. by rewrite Hsame.
Qed.

Lemma set_depends_only_on_message_witness :
  SetChannelWelcomeCall healthy
    (Encoded {| Context_ := in_open_channel;
                Values := {[ "message" := JString "hi"; "team_name" := JString "Acme" ]} |})
    emptyWorld
  = SetChannelWelcomeCall healthy
      (Encoded {| Context_ := in_open_channel;
                  Values := {[ "message" := JString "hi"; "team_name" := JString "Initech" ]} |})
      emptyWorld.
Proof.
  apply set_depends_only_on_message; vm_compute; reflexivity.
Defined.

(** X2. [list], [get_channel_welcome] and [delete_channel_welcome] read
    nothing of the request but its context, from which they build the
    client: two bodies with the same context get the same reply and
    leave the same world, whatever their form values. [help] and
    [preview] do not read the request at all. *)
Theorem other_handlers_ignore_the_request (p : Platform) (body1 body2 : Body) (w : World) :
  (Context_ (decoded body1) = Context_ (decoded body2) ->
   ListCall p body1 w = ListCall p body2 w /\
   GetChannelWelcomeCall p body1 w = GetChannelWelcomeCall p body2 w /\
   DeleteChannelWelcomeCall p body1 w = DeleteChannelWelcomeCall p body2 w) /\
  HelpCall p body1 w = HelpCall p body2 w /\
  PreviewCall p body1 w = PreviewCall p body2 w.
Proof.
  rewrite !ListCall_run, !GetChannelWelcomeCall_run, !DeleteChannelWelcomeCall_run.
  repeat split.
Qed.

Lemma other_handlers_ignore_the_request_witness :
  let body1 := Encoded {| Context_ := in_open_channel; Values := ∅ |} in
  let body2 := Encoded {| Context_ := in_open_channel;
                          Values := {[ "team_name" := JString "Acme" ]} |} in
  let w := with_kv (insert welcome_slot (JString "Welcome!")) emptyWorld in
  ListCall healthy body1 w = ListCall healthy body2 w /\
  GetChannelWelcomeCall healthy body1 w = GetChannelWelcomeCall healthy body2 w /\
  DeleteChannelWelcomeCall healthy body1 w = DeleteChannelWelcomeCall healthy body2 w.
Proof.
  intros body1 body2 w.
  apply (proj1 (other_handlers_ignore_the_request healthy body1 body2 w)).
  reflexivity.
Defined.

(** X3. Reading never writes: [list] and [get_channel_welcome] leave the
    store, the posts and the log as they were, whatever the platform
    answers, and [help] and [preview] leave the whole world as it was. *)
Theorem reading_handlers_leave_the_store (p : Platform) (body : Body) (w : World) :
  (let w' := snd (ListCall p body w) in
   kv w' = kv w /\ posts w' = posts w /\ logged w' = logged w) /\
  (let w' := snd (GetChannelWelcomeCall p body w) in
   kv w' = kv w /\ posts w' = posts w /\ logged w' = logged w) /\
  snd (HelpCall p body w) = w /\
  snd (PreviewCall p body w) = w.
Proof.
  rewrite ListCall_run, GetChannelWelcomeCall_run. repeat split.
Qed.

(** X4. A write that was not stored changes nothing in the store and
    prints the error once (nil when the platform declined the write); a
    write that was stored prints nothing and puts the submitted value
    under the welcome key. *)
Theorem set_failure_keeps_store_and_logs (p : Platform) (body : Body) (w : World) :
  let out := SetChannelWelcomeCall p body w in
  (fst out = Done (NewTextResponse "We couldn't set your message") ->
     kv (snd out) = kv w /\ logged (snd out) = (logged w ++ [fault p])%list) /\
  (fst out = Done (NewTextResponse "Your message has been set") ->
     kv (snd out) = <[welcome_slot := submitted_message body]> (kv w) /\
     logged (snd out) = logged w).
Proof.
  cbv zeta. rewrite SetChannelWelcomeCall_run. cbv zeta.
  unfold submitted_message, decoded.
  destruct (fault p) as [e|] eqn:Hf; [|destruct (declines p)]; simpl;
    split; intros H; try discriminate; split; reflexivity.
Qed.

Lemma set_failure_keeps_store_and_logs_witness :
  let w := with_kv (insert welcome_slot (JString "old")) emptyWorld in
  let out := SetChannelWelcomeCall (unreachable "quota") 
               (Encoded {| Context_ := zeroContext;
                           Values := {[ "message" := JString "new" ]} |}) w in
  kv (snd out) = kv w /\
  logged (snd out) = (logged w ++ [Some (ErrUnavailable "quota")])%list.
Proof.
  intros w out.
  apply (proj1 (set_failure_keeps_store_and_logs (unreachable "quota") _ w)).
  reflexivity.
Defined.

(** X8. A failing platform looks like a missing message: when the read
    fails, [get_channel_welcome] and [list] answer with the guidance
    text as a normal text response, whatever is stored, and the stored
    value stays. *)
Theorem outage_reads_as_unset (p : Platform) (body : Body) (w : World) :
  fault p <> None ->
  fst (GetChannelWelcomeCall p body w) = Done (NewTextResponse guidance) /\
  fst (ListCall p body w) = Done (NewTextResponse guidance) /\
  kv (snd (GetChannelWelcomeCall p body w)) = kv w.
Proof.
  intros Hdown. rewrite GetChannelWelcomeCall_run, ListCall_run. unfold read_error.
  destruct (fault p); [|congruence]. repeat split.
Qed.

Lemma outage_reads_as_unset_witness :
  let w := with_kv (insert welcome_slot (JString "Welcome!")) emptyWorld in
  fst (GetChannelWelcomeCall (unreachable "timeout") NoBody w)
    = Done (NewTextResponse guidance) /\
  fst (ListCall (unreachable "timeout") NoBody w) = Done (NewTextResponse guidance) /\
  kv (snd (GetChannelWelcomeCall (unreachable "timeout") NoBody w)) = kv w.
Proof.
  intros w. apply (outage_reads_as_unset (unreachable "timeout") NoBody w). discriminate.
Defined.

(** ** What is written and what is read back *)

(** X9. The form value is stored as it came, but read back into a
    string: a message that is a number, a boolean, an array or an
    object is stored and confirmed, and from then on
    [get_channel_welcome] and [list] answer with the guidance text, the
    read failing on the type of the stored value. *)
Theorem non_text_message_is_stored_but_unreadable
    (v : JSON) (cc : CallContext) (vals : gmap string JSON)
    (p1 p2 : Platform) (body2 : Body) (w : World) :
  not_a_text v = true ->
  fault p1 = None -> declines p1 = false -> fault p2 = None ->
  let req := Encoded {| Context_ := cc; Values := <["message" := v]> vals |} in
  let w1 := snd (SetChannelWelcomeCall p1 req w) in
  fst (SetChannelWelcomeCall p1 req w) = Done (NewTextResponse "Your message has been set") /\
  kv w1 !! welcome_slot = Some v /\
  fst (GetChannelWelcomeCall p2 body2 w1) = Done (NewTextResponse guidance) /\
  fst (ListCall p2 body2 w1) = Done (NewTextResponse guidance).
Proof.
  intros Hv Hup Hacc Hup2 req w1. subst w1 req.
  rewrite SetChannelWelcomeCall_run, Hup, Hacc. cbv zeta.
  assert (Hval : value_at (<["message" := v]> vals) "message" = v)
    by (unfold value_at; by rewrite lookup_insert_eq).
  cbn [fst snd Decode Values]. rewrite Hval.
  rewrite GetChannelWelcomeCall_run, ListCall_run, Hup2. unfold read_error. rewrite Hup2.
  cbn [kv with_kv record_op]. rewrite lookup_insert_eq.
  destruct v; try discriminate Hv; repeat split.
Qed.

Lemma non_text_message_is_stored_but_unreadable_witness :
  let req := Encoded {| Context_ := zeroContext;
                        Values := <["message" := JNumber "42"]> ∅ |} in
  fst (GetChannelWelcomeCall healthy NoBody (snd (SetChannelWelcomeCall healthy req emptyWorld)))
  = Done (NewTextResponse guidance).
Proof.
  intros req.
  exact (proj1 (proj2 (proj2
    (non_text_message_is_stored_but_unreadable (JNumber "42") zeroContext ∅
       healthy healthy NoBody emptyWorld eq_refl eq_refl eq_refl eq_refl)))).
Defined.

(** X10. [set_channel_welcome] does not ask for a message: a request
    without the form value (or with no body at all) is confirmed and
    stores null; [get_channel_welcome] then answers with the empty text
    and [list] reports a message as present. *)
Theorem missing_message_is_stored_as_null
    (p1 p2 : Platform) (body body2 : Body) (w : World) :
  submitted_message body = JNull ->
  fault p1 = None -> declines p1 = false -> fault p2 = None ->
  let w1 := snd (SetChannelWelcomeCall p1 body w) in
  fst (SetChannelWelcomeCall p1 body w) = Done (NewTextResponse "Your message has been set") /\
  kv w1 !! welcome_slot = Some JNull /\
  fst (GetChannelWelcomeCall p2 body2 w1) = Done (NewTextResponse "") /\
  fst (ListCall p2 body2 w1) = Done (NewTextResponse "Shown Welcome Bot List").
Proof.
  intros Hnull Hup Hacc Hup2. unfold submitted_message, decoded in Hnull. cbv zeta.
  rewrite SetChannelWelcomeCall_run, Hup, Hacc. cbv zeta. rewrite Hnull.
  rewrite GetChannelWelcomeCall_run, ListCall_run, Hup2. unfold read_error. rewrite Hup2.
  cbn [fst snd kv with_kv record_op]. rewrite lookup_insert_eq. repeat split.
Qed.

Lemma missing_message_is_stored_as_null_witness :
  fst (GetChannelWelcomeCall healthy NoBody (snd (SetChannelWelcomeCall healthy NoBody emptyWorld)))
  = Done (NewTextResponse "").
Proof.
  exact (proj1 (proj2 (proj2
    (missing_message_is_stored_as_null healthy healthy NoBody NoBody emptyWorld
       eq_refl eq_refl eq_refl eq_refl)))).
Defined.

(** X11. [list] and [get_channel_welcome] read the same slot the same
    way: on one world and one platform, when [list] gives the guidance
    text so does [get_channel_welcome], and when [list] reports a
    message the platform served the read and [get_channel_welcome]
    answers with the stored string as the format of its text (the
    empty text for a stored null). *)
Theorem list_and_get_agree (p : Platform) (body1 body2 : Body) (w : World) :
  exists rl rg,
    fst (ListCall p body1 w) = Done rl /\
    fst (GetChannelWelcomeCall p body2 w) = Done rg /\
    (Text rl = guidance -> Text rg = guidance) /\
    (Text rl = "Shown Welcome Bot List" ->
       fault p = None /\
       ((exists s, kv w !! welcome_slot = Some (JString s) /\ Text rg = Sprintf s) \/
        (kv w !! welcome_slot = Some JNull /\ Text rg = ""))).
Proof.
  rewrite ListCall_run, GetChannelWelcomeCall_run. unfold read_error.
  eexists _, _. split; [reflexivity|]. split; [reflexivity|].
  destruct (fault p) as [e|]; cbn [Text NewTextResponse snd].
  - split; [reflexivity | discriminate].
  - destruct (kv w !! welcome_slot) as [[]|]; cbn [unmarshal_string snd];
      (split; [intros H; try reflexivity; discriminate H|]);
      intros H; try discriminate H; (split; [reflexivity|]); eauto.
Qed.

(** X7. Repeating a request repeats nothing: a second identical
    [set_channel_welcome], or a second [delete_channel_welcome], under
    the same platform leaves the store as the first left it, and a
    delete on a store without a message leaves the store as it was. *)
Theorem repeated_set_or_delete_is_idempotent
    (p : Platform) (body body1 body2 : Body) (w : World) :
  kv (snd (SetChannelWelcomeCall p body (snd (SetChannelWelcomeCall p body w))))
    = kv (snd (SetChannelWelcomeCall p body w)) /\
  kv (snd (DeleteChannelWelcomeCall p body2 (snd (DeleteChannelWelcomeCall p body1 w))))
    = kv (snd (DeleteChannelWelcomeCall p body1 w)) /\
  (kv w !! welcome_slot = None ->
   kv (snd (DeleteChannelWelcomeCall p body1 w)) = kv w).
Proof.
  rewrite !SetChannelWelcomeCall_run, !DeleteChannelWelcomeCall_run. cbv zeta.
  destruct (fault p); [|destruct (declines p)]; simpl; repeat split;
    rewrite ?insert_insert_eq, ?delete_delete_eq; try reflexivity;
    intros Habsent; by rewrite delete_id.
Qed.

Lemma repeated_set_or_delete_is_idempotent_witness :
  kv (snd (DeleteChannelWelcomeCall healthy NoBody emptyWorld)) = kv emptyWorld.
Proof.
  apply (proj2 (proj2 (repeated_set_or_delete_is_idempotent
                         healthy NoBody NoBody NoBody emptyWorld))).
  reflexivity.
Defined.

(** ** Sequences of requests *)

Lemma serve_world (reqs : list Request) (w : World) :
  kv (serve reqs w) = foldl (fun m r => store_after r m) (kv w) reqs /\
  kvlog (serve reqs w) = (kvlog w ++ flat_map kv_call_of reqs)%list /\
  posts (serve reqs w) = posts w /\
  logged (serve reqs w) = (logged w ++ flat_map log_line_of reqs)%list.
Proof.
  revert w. induction reqs as [|[[cmd p] body] rest IH]; intros w.
  - cbn [serve foldl flat_map]. by rewrite !app_nil_r.
  - cbn [serve foldl flat_map].
    destruct (IH (snd (handler cmd p body w))) as (Hkv & Hlog & Hposts & Hlogged).
    destruct (handler_world cmd p body w) as (Hkv1 & Hlog1 & Hposts1 & Hlogged1).
    rewrite Hkv, Hlog, Hposts, Hlogged, Hkv1, Hlog1, Hposts1, Hlogged1.
    by rewrite <- !app_assoc.
Qed.

Lemma quiet_requests_keep_store (reqs : list Request) (m : gmap (string * string) JSON) :
  Forall (fun r => changes_store r = false) reqs ->
  foldl (fun m r => store_after r m) m reqs = m.
Proof.
  intros Hquiet. revert m. induction Hquiet as [|[[cmd p] body] rest Hr _ IH]; intros m.
  - reflexivity.
  - cbn [foldl]. rewrite IH.
    destruct cmd; simpl in Hr |- *; try reflexivity; by rewrite Hr.
Qed.

Lemma store_after_quiet_tail (pre post : list Request) (r : Request) (w : World) :
  Forall (fun r => changes_store r = false) post ->
  kv (serve (pre ++ r :: post) w) = store_after r (kv (serve pre w)).
Proof.
  intros Hquiet.
  rewrite (proj1 (serve_world (pre ++ r :: post) w)), foldl_app. cbn [foldl].
  rewrite quiet_requests_keep_store by done.
  by rewrite (proj1 (serve_world pre w)).
Qed.

Lemma stored_value_comes_from_a_set (reqs : list Request)
    (m : gmap (string * string) JSON) (v : JSON) :
  foldl (fun m r => store_after r m) m reqs !! welcome_slot = Some v ->
  m !! welcome_slot = Some v \/
  exists p body, In (CmdSetChannelWelcome, p, body) reqs /\
                 stores p = true /\ v = submitted_message body.
Proof.
  revert m. induction reqs as [|[[cmd p] body] rest IH]; intros m Hv.
  - by left.
  - cbn [foldl] in Hv. destruct (IH _ Hv) as [Hhere | (p' & body' & Hin & Hst & Hmsg)].
    + destruct cmd; simpl in Hhere; try (by left).
      * destruct (stores p) eqn:Hst; [|by left].
        rewrite lookup_insert_eq in Hhere. injection Hhere as <-.
        right. exists p, body. split; [by left | done].
      * destruct (serves p); [|by left].
        by rewrite lookup_delete_eq in Hhere.
    + right. exists p', body'. split; [by right | done].
Qed.

(** X5. The last stored write wins and reads do not disturb it: after
    any requests, a [set_channel_welcome] of [text] that the platform
    stored, and then any requests that change nothing in the store
    (help, list, preview, get, and writes or deletes that failed),
    [get_channel_welcome] answers with the response made of [text] as
    its format, which is exactly [text] when it has no '%'. *)
Theorem last_stored_message_is_returned
    (pre post : list Request) (text : string) (cc : CallContext)
    (vals : gmap string JSON) (p1 p2 : Platform) (body2 : Body) (w : World) :
  fault p1 = None -> declines p1 = false -> fault p2 = None ->
  Forall (fun r => changes_store r = false) post ->
  let set := (CmdSetChannelWelcome, p1,
              Encoded {| Context_ := cc; Values := <["message" := JString text]> vals |}) in
  fst (GetChannelWelcomeCall p2 body2 (serve (pre ++ set :: post) w))
    = Done (NewTextResponse text) /\
  (contains "%" text = false ->
   fst (GetChannelWelcomeCall p2 body2 (serve (pre ++ set :: post) w))
     = Done {| Type_ := CallResponseTypeOK; Text := text |}).
Proof.
  intros Hup Hacc Hup2 Hquiet set. subst set.
  rewrite GetChannelWelcomeCall_run, Hup2, store_after_quiet_tail by done.
  cbn [store_after]. rewrite (proj2 (stores_true p1)) by done.
  rewrite lookup_insert_eq.
  unfold submitted_message, decoded, value_at. cbn [fst Decode Values].
  rewrite lookup_insert_eq. cbn [default].
  split; [reflexivity|].
  intros Hplain. unfold NewTextResponse. by rewrite Sprintf_plain.
Qed.

Lemma last_stored_message_is_returned_witness :
  let say text := Encoded {| Context_ := in_open_channel;
                             Values := <["message" := JString text]> ∅ |} in
  let ask := Encoded {| Context_ := in_open_channel; Values := ∅ |} in
  fst (GetChannelWelcomeCall healthy ask
         (serve ([(CmdSetChannelWelcome, healthy, say "first");
                  (CmdDeleteChannelWelcome, healthy, ask)]
                 ++ (CmdSetChannelWelcome, healthy, say "second")
                 :: [(CmdList, healthy, ask);
                     (CmdSetChannelWelcome, unreachable "timeout", say "third");
                     (CmdDeleteChannelWelcome, unreachable "timeout", ask);
                     (CmdHelp, healthy, ask)])
                emptyWorld))
  = Done {| Type_ := CallResponseTypeOK; Text := "second" |}.
Proof.
  intros say ask.
  apply (last_stored_message_is_returned _ _ "second" in_open_channel ∅ healthy healthy);
    try reflexivity.
  repeat constructor.
Defined.

(** X6. A delete the platform carried out holds until the next stored
    write: after any requests, such a delete, and then any requests
    that change nothing in the store, [get_channel_welcome] answers
    with the guidance text, whatever the platform does on that read. *)
Theorem deleted_message_stays_deleted
    (pre post : list Request) (p1 p2 : Platform) (body1 body2 : Body) (w : World) :
  fault p1 = None ->
  Forall (fun r => changes_store r = false) post ->
  fst (GetChannelWelcomeCall p2 body2
         (serve (pre ++ (CmdDeleteChannelWelcome, p1, body1) :: post) w))
  = Done (NewTextResponse guidance).
Proof.
  intros Hup Hquiet.
  rewrite GetChannelWelcomeCall_run, store_after_quiet_tail by done.
  cbn [store_after]. unfold serves. rewrite Hup, lookup_delete_eq.
  by destruct (fault p2).
Qed.

Lemma deleted_message_stays_deleted_witness :
  fst (GetChannelWelcomeCall healthy NoBody
         (serve ([(CmdSetChannelWelcome, healthy,
                   Encoded {| Context_ := zeroContext;
                              Values := <["message" := JString "Welcome!"]> ∅ |})]
                 ++ (CmdDeleteChannelWelcome, healthy, NoBody)
                 :: [(CmdGetChannelWelcome, healthy, NoBody);
                     (CmdSetChannelWelcome, declining, NoBody)])
                emptyWorld))
  = Done (NewTextResponse guidance).
Proof.
  apply (deleted_message_stays_deleted _ _ healthy healthy NoBody NoBody emptyWorld);
    [reflexivity | repeat constructor].
Defined.

(** X12. The handlers make one call to the key-value methods of the
    client for each [list], [get], [set] and [delete] request, in the
    order of the requests and with the fixed prefix and key, and none
    for [help] and [preview]; the call is made whatever its outcome
    will be. The handlers never post a message, and the log gets one
    line for each write that was not stored. *)
Theorem kv_calls_follow_the_requests (reqs : list Request) (w : World) :
  kvlog (serve reqs w) = (kvlog w ++ flat_map kv_call_of reqs)%list /\
  length (kvlog (serve reqs w)) <= length (kvlog w) + length reqs /\
  posts (serve reqs w) = posts w /\
  logged (serve reqs w) = (logged w ++ flat_map log_line_of reqs)%list.
Proof.
  destruct (serve_world reqs w) as (_ & Hlog & Hposts & Hlogged).
  split; [exact Hlog|]. split; [|by split].
  rewrite Hlog, length_app. apply Nat.add_le_mono_l.
  clear. induction reqs as [|[[cmd p] body] rest IH]; [done|].
  cbn [flat_map]. rewrite length_app. destruct cmd; simpl; lia.
Qed.

(** X13. Nothing is stored that was not submitted: whatever a store
    that started empty holds under the welcome key after any requests
    is the form value "message" of one of the [set_channel_welcome]
    requests, one the platform stored. *)
Theorem stored_message_was_submitted (reqs : list Request) (v : JSON) :
  kv (serve reqs emptyWorld) !! welcome_slot = Some v ->
  exists p body,
    In (CmdSetChannelWelcome, p, body) reqs /\
    fault p = None /\ declines p = false /\
    v = submitted_message body.
Proof.
  rewrite (proj1 (serve_world reqs emptyWorld)). intros Hv.
  destruct (stored_value_comes_from_a_set _ _ _ Hv) as [Hempty | (p & body & Hin & Hst & Hmsg)].
  - simpl in Hempty. by rewrite lookup_empty in Hempty.
  - apply stores_true in Hst as [Hup Hacc]. by exists p, body.
Qed.

Lemma stored_message_was_submitted_witness :
  let say text := Encoded {| Context_ := zeroContext;
                             Values := <["message" := JString text]> ∅ |} in
  let reqs := [(CmdSetChannelWelcome, unreachable "timeout", say "lost");
               (CmdSetChannelWelcome, healthy, say "kept");
               (CmdList, healthy, NoBody)] in
  exists p body,
    In (CmdSetChannelWelcome, p, body) reqs /\
    fault p = None /\ declines p = false /\
    JString "kept" = submitted_message body.
Proof.
  intros say reqs. apply (stored_message_was_submitted reqs (JString "kept")).
  vm_compute. reflexivity.
Defined.

(** ** Replies *)

(** X14. Every handler of part_000 answers with a text response,
    whatever the body and the platform, and the text is never empty but
    for [get_channel_welcome] served on a store that holds the empty
    string or null. *)
Theorem part000_replies_are_texts (cmd : Command) (p : Platform) (body : Body) (w : World) :
  exists r,
    fst (handler cmd p body w) = Done r /\
    Type_ r = CallResponseTypeOK /\
    (Text r = "" ->
       cmd = CmdGetChannelWelcome /\ fault p = None /\
       (kv w !! welcome_slot = Some (JString "") \/ kv w !! welcome_slot = Some JNull)).
Proof.
  destruct cmd; cbn [handler].
  - rewrite HelpCall_run. eexists; repeat split; discriminate.
  - rewrite ListCall_run. eexists; split; [reflexivity|]. split; [reflexivity|].
    simpl. destruct (read_error p w ""); discriminate.
  - rewrite PreviewCall_run. eexists; repeat split; discriminate.
  - rewrite SetChannelWelcomeCall_run. cbv zeta.
    destruct (fault p); [|destruct (declines p)];
      (eexists; split; [reflexivity|]; split; [reflexivity|]; discriminate).
  - rewrite GetChannelWelcomeCall_run. eexists; split; [reflexivity|]. split; [reflexivity|].
    cbn [Text NewTextResponse]. destruct (fault p); [discriminate|].
    destruct (kv w !! welcome_slot) as [[]|]; try discriminate; intros Hempty;
      try apply Sprintf_empty in Hempty; try subst; auto.
  - rewrite DeleteChannelWelcomeCall_run. eexists; repeat split; discriminate.
Qed.

Lemma part000_replies_are_texts_witness :
  let w := with_kv (insert welcome_slot (JString "")) emptyWorld in
  kv w !! welcome_slot = Some (JString "") \/ kv w !! welcome_slot = Some JNull.
Proof.
  intros w.
  destruct (part000_replies_are_texts CmdGetChannelWelcome healthy NoBody w)
    as (r & Hr & _ & Hempty).
  rewrite GetChannelWelcomeCall_run in Hr. injection Hr as <-.
  exact (proj2 (proj2 (Hempty eq_refl))).
Defined.

(** ** The scaffold of main.go *)

Lemma maingo_HelpCall_run (p : Platform) (body : Body) (w : World) :
  MainGo.HelpCall p body w =
  match ActingUser (Context_ (decoded body)) with
  | Some u =>
      (Done (NewTextResponse "Shown Welcome Bot Help"),
       if can_post p (Context_ (decoded body))
       then add_post (User_Id u) "Help Call" w else w)
  | None =>
      (Panic "runtime error: invalid memory address or nil pointer dereference", w)
  end.
Proof.
  unfold MainGo.HelpCall, decoded, mbind, M_bind, bind, deref_ActingUser, DM,
    can_post, serves, AsBot.
  destruct (ActingUser _) as [u|]; cbn [ret acting_as]; [|reflexivity].
  destruct (fault p); [reflexivity|].
  destruct (String.eqb _ ""); reflexivity.
Qed.

(** X15. [HelpCall] of main.go answers exactly when the decoded request
    carries an acting user. It then replies "Shown Welcome Bot Help"
    whether or not its message was posted, the only post it can make
    is "Help Call" to the acting user, and it touches neither the
    store nor the log; without an acting user it panics before it
    posts anything. *)
Theorem maingo_help_needs_and_messages_the_acting_user
    (p : Platform) (body : Body) (w : World) :
  ((exists r, fst (MainGo.HelpCall p body w) = Done r)
     <-> ActingUser (Context_ (decoded body)) <> None) /\
  (forall u, ActingUser (Context_ (decoded body)) = Some u ->
     fst (MainGo.HelpCall p body w) = Done (NewTextResponse "Shown Welcome Bot Help") /\
     (posts (snd (MainGo.HelpCall p body w)) = posts w \/
      posts (snd (MainGo.HelpCall p body w))
        = (posts w ++ [(User_Id u, "Help Call")])%list)) /\
  (ActingUser (Context_ (decoded body)) = None ->
     (exists msg, fst (MainGo.HelpCall p body w) = Panic msg) /\
     posts (snd (MainGo.HelpCall p body w)) = posts w).
Proof.
  rewrite maingo_HelpCall_run.
  destruct (ActingUser (Context_ (decoded body))) as [u|]; cbn [fst snd].
  - split; [split; [discriminate | eauto]|].
    split; [|discriminate].
    intros u' [= <-]. split; [reflexivity|].
    destruct (can_post p _); [right | left]; reflexivity.
  - split; [split; [intros [r Hr]; discriminate | congruence]|].
    split; [discriminate | eauto].
Qed.

Lemma maingo_help_needs_and_messages_the_acting_user_witness :
  let body := Encoded {| Context_ := in_open_channel; Values := ∅ |} in
  fst (MainGo.HelpCall healthy body emptyWorld)
    = Done (NewTextResponse "Shown Welcome Bot Help") /\
  (posts (snd (MainGo.HelpCall healthy body emptyWorld)) = posts emptyWorld \/
   posts (snd (MainGo.HelpCall healthy body emptyWorld))
     = (posts emptyWorld ++ [(User_Id alice, "Help Call")])%list).
Proof.
  intros body.
  exact (proj1 (proj2 (maingo_help_needs_and_messages_the_acting_user
                         healthy body emptyWorld)) alice eq_refl).
Defined.

(** X16. No handler of main.go touches the key-value store or the log,
    and only [HelpCall] changes anything in the world (the posts). *)
Theorem maingo_handlers_never_touch_the_store
    (cmd : Command) (p : Platform) (body : Body) (w : World) :
  let w' := snd (MainGo.handler cmd p body w) in
  kv w' = kv w /\ kvlog w' = kvlog w /\ logged w' = logged w /\
  (cmd <> CmdHelp -> w' = w).
Proof.
  destruct cmd; cbn [MainGo.handler]; cbv zeta;
    try (split; [|split; [|split]]; reflexivity).
  rewrite maingo_HelpCall_run.
  destruct (ActingUser _) as [u|]; [destruct (can_post p _)|]; cbn [snd];
    (split; [|split; [|split]]); try reflexivity; congruence.
Qed.

Lemma maingo_handlers_never_touch_the_store_witness :
  snd (MainGo.handler CmdSetChannelWelcome healthy
         (Encoded {| Context_ := in_direct_channel;
                     Values := {[ "message" := JString "hello" ]} |})
         emptyWorld)
  = emptyWorld.
Proof.
  apply (maingo_handlers_never_touch_the_store CmdSetChannelWelcome). discriminate.
Defined.

(** ** Paths, bindings and forms *)

Ltac route_case :=
  match goal with
  | |- context [String.eqb ?a ?b] =>
      destruct (String.eqb_spec a b) as [->|_]; [intros [= <-]; reflexivity|]
  end.

Lemma command_of_path_names (path : string) (cmd : Command) :
  command_of_path path = Some cmd -> path = "/" +:+ command_name cmd.
Proof.
  unfold command_of_path. repeat route_case. discriminate.
Qed.

(** X17. [main] routes a path to a command handler exactly when the
    path is "/" followed by the name of the command, so every command
    has its own path and other paths ("/bindings", "/manifest.json",
    ...) reach no command handler. *)
Theorem command_paths_are_the_command_names :
  (forall path cmd,
     command_of_path path = Some cmd <-> path = "/" +:+ command_name cmd) /\
  (forall path, ~ In path (map (fun cmd => "/" +:+ command_name cmd) all_commands) ->
     command_of_path path = None).
Proof.
  assert (Hiff : forall path cmd,
             command_of_path path = Some cmd <-> path = "/" +:+ command_name cmd).
  { intros path cmd. split; [apply command_of_path_names|].
    intros ->. destruct cmd; reflexivity. }
  split; [exact Hiff|].
  intros path Hnot. destruct (command_of_path path) as [cmd|] eqn:Hcmd; [|reflexivity].
  exfalso. apply Hnot. apply Hiff in Hcmd as ->.
  apply (in_map (fun c => "/" +:+ command_name c)). destruct cmd; simpl; tauto.
Qed.

Lemma command_paths_are_the_command_names_witness :
  command_of_path "/bindings" = None.
Proof.
  apply (proj2 command_paths_are_the_command_names).
  simpl. intros H. repeat (destruct H as [H|H]; [discriminate H|]). exact H.
Defined.

(** X18. The menu and [main] agree, in both sources: the six commands
    of the menu submit, directly or through their form, to the six
    paths that [main] routes to the handlers of help, list, preview,
    set_channel_welcome, get_channel_welcome and delete_channel_welcome,
    in this order, so no menu entry is left without a handler and no
    command handler without a menu entry. In part_000 the labels are
    the command names, the hint lists exactly them, and the form of
    set_channel_welcome has the field "message" its handler reads. *)
Theorem menus_reach_every_command_handler :
  map (fun o => o ≫= command_of_path) (menu_paths Part000.Bindings)
    = map Some all_commands /\
  map (fun o => o ≫= command_of_path) (menu_paths MainGo.Bindings)
    = map Some all_commands /\
  menu_labels Part000.Bindings = map command_name all_commands /\
  map Binding_Hint (flat_map Binding_Bindings Part000.Bindings)
    = ["[" +:+ String.concat "|" (menu_labels Part000.Bindings) +:+ "]"] /\
  In "message" (map Field_Name (Form_Fields Part000.SetChannelWelcomeForm)).
Proof.
  vm_compute. repeat split. tauto.
Qed.
